(** * The session guard of @adonisjs/auth, embedded in Rocq

    The development follows the [SessionGuard] class: the guard's mutable
    fields become a record, the HTTP context (session store, request and
    response cookies) and the emitter become an explicit state, and every
    method is a computation in a small state-and-exception monad.
    A JavaScript [throw] keeps the mutations made before it, so a failed
    computation still returns the state it reached. The user the provider
    hands back has an unconstrained type: it may be [undefined] or any other
    value, falsy ones included, and the guard tests it by truthiness. The
    methods are [async];
    each call is awaited before the next one is made, so a method runs from
    its first statement to its last without interleaving. *)

From Stdlib Require Import String ZArith Bool Lia.
From stdpp Require Import base option list gmap strings.

(** ** Values exchanged with the collaborators *)

(** [string | number | BigInt]: the type of a user identifier. *)
Inductive UserId : Type :=
| IdString (s : string)
| IdNumber (n : Z)
| IdBigInt (n : Z).

(** JavaScript truthiness of an identifier: [""], [0] and [0n] are falsy. *)
Definition js_truthy_id (v : UserId) : bool :=
  match v with
  | IdString s => negb (String.eqb s "")
  | IdNumber n => negb (Z.eqb n 0)
  | IdBigInt n => negb (Z.eqb n 0)
  end.

(** JavaScript truthiness of a string (a decrypted cookie value). *)
Definition js_truthy_string (s : string) : bool := negb (String.eqb s "").

(** The value read from a store, kept only when the [if (x)] test of the
    source lets it through; [undefined] and [null] are [None]. *)
Definition js_if {A : Type} (truthy : A -> bool) (x : option A) : option A :=
  match x with
  | Some a => if truthy a then Some a else None
  | None => None
  end.

(** Modelled from the spec: the remember-me token class (remember_me_token.ts
    is not among the sources). The guard reads [identifier], [tokenableId] and
    the optional secret [value]; [value] is [None] for a token that carries no
    plain-text secret, [Some v] where [v] is what [value.release()] yields. *)
Record RememberMeToken : Type := mkRememberMeToken {
  identifier : string;
  tokenableId : UserId;
  value : option string;
  expiresAt : Z
}.

(** Modelled from the spec: the errors the guard raises. [E_UNAUTHORIZED_ACCESS]
    (errors.ts is not among the sources) carries its message and the guard
    driver name; [RuntimeException] is the configuration error of
    [#getSession]; [TypeError] is what the engine raises when a property of
    [undefined] is read. *)
Inductive Exception : Type :=
| E_UNAUTHORIZED_ACCESS (message : string) (guardDriverName : string)
| RuntimeException (message : string)
| TypeError (message : string).

(** [error instanceof E_UNAUTHORIZED_ACCESS] *)
Definition instanceof_E_UNAUTHORIZED_ACCESS (error : Exception) : bool :=
  match error with
  | E_UNAUTHORIZED_ACCESS _ _ => true
  | _ => false
  end.

(** The session store of the request, as the guard uses it (the store itself
    belongs to the @adonisjs/session package): a session identifier and the
    values stored under string keys. [get], [put] and [regenerate] are its
    primitives; [regenerations] counts the calls of [regenerate]. The guard
    reads [sessionId] before it calls [regenerate], so the identifier the
    store picks afterwards never reaches an event. *)
Record Session : Type := mkSession {
  sessionId : string;
  values : gmap string UserId;
  regenerations : nat
}.

Definition Session_put (key : string) (v : UserId) (s : Session) : Session :=
  {| sessionId := sessionId s;
     values := <[key := v]> (values s);
     regenerations := regenerations s |}.

Definition Session_regenerate (s : Session) : Session :=
  {| sessionId := sessionId s;
     values := values s;
     regenerations := S (regenerations s) |}.

(** A cookie written on the response with [encryptedCookie(key, value, options)]. *)
Record ResponseCookie : Type := mkResponseCookie {
  cookie_value : string;
  httpOnly : bool
}.

(** The HTTP context of the request. [session] is [None] when the
    ['session'] property is not in the context. [request_cookies] holds the
    decrypted values of the encrypted cookies of the request. *)
Record HttpContext : Type := mkHttpContext {
  session : option Session;
  request_cookies : gmap string string;
  response_cookies : gmap string ResponseCookie
}.

(** JavaScript truthiness of the values of a type: what [if (x)] and [!x]
    test. *)
Class JsTruthy (A : Type) : Type := js_truthy : A -> bool.

(** How a method call completes: with a value, or with a thrown error. *)
Inductive Completion (A : Type) : Type :=
| Return (a : A)
| Throw (e : Exception).
Arguments Return {A} a.
Arguments Throw {A} e.

Section Guard.

(** [User] holds the values a real user can be, [undefined] apart; some of
    them may be falsy. A value of the source's type
    [UserProvider[typeof PROVIDER_REAL_USER]] is an [option User], [None]
    being [undefined]. *)
Context {User : Type} {truthy_user : JsTruthy User}.

(** What the provider hands back for a user: [getId()] and [getOriginal()]. *)
Record ProviderUser : Type := mkProviderUser {
  getId : UserId;
  getOriginal : option User
}.

(** Modelled from the spec: [SessionUserProviderContract] (types.ts is not
    among the sources), with the four methods the guard calls. The provider
    is taken to answer every call (its promises resolve). *)
Record UserProvider : Type := mkUserProvider {
  findById : UserId -> option ProviderUser;
  verifyRememberToken : string -> option RememberMeToken;
  recycleRememberToken : option User -> string -> RememberMeToken;
  createUserForGuard : option User -> ProviderUser
}.

(** [SessionGuardEvents], with the payloads built at the [emit] calls of the
    guard; the [ctx] field, a reference to the context, is left out. *)
Inductive SessionGuardEvent : Type :=
| authentication_attempted (guardName sessionId : string)
| authentication_succeeded (guardName sessionId : string) (user : option User)
    (rememberMeToken : option RememberMeToken)
| authentication_failed (guardName : string) (error : Exception)
    (sessionId : string).

(** Every interaction of the guard with a collaborator, in program order. *)
Inductive Effect : Type :=
| SessionGet (key : string)
| SessionPut (key : string) (v : UserId)
| SessionRegenerate
| RequestEncryptedCookie (key : string)
| ResponseEncryptedCookie (key : string) (v : string) (http_only : bool)
| ProviderFindById (id : UserId)
| ProviderVerifyRememberToken (secret : string)
| ProviderRecycleRememberToken (user : option User) (ident : string)
| ProviderCreateUserForGuard (user : option User)
| Emit (event : SessionGuardEvent).

(** The fields of the [SessionGuard] class. [user] is [None] exactly when
    [this.user] is [undefined]: before any assignment, or after the
    assignment of an [undefined] original. *)
Record SessionGuard : Type := mkSessionGuard {
  name : string;
  userProvider : UserProvider;
  authenticationAttempted : bool;
  isAuthenticated : bool;
  viaRemember : bool;
  attemptedViaRemember : bool;
  isLoggedOut : bool;
  user : option User
}.

Definition driverName : string := "session".

(** [new SessionGuard(name, ctx, emitter, userProvider)] *)
Definition SessionGuard_new (n : string) (p : UserProvider) : SessionGuard :=
  {| name := n; userProvider := p;
     authenticationAttempted := false; isAuthenticated := false;
     viaRemember := false; attemptedViaRemember := false;
     isLoggedOut := false; user := None |}.

Definition sessionKeyName (g : SessionGuard) : string := "auth_" +:+ name g.
Definition rememberMeKeyName (g : SessionGuard) : string := "remember_" +:+ name g.

(** The guard, the context it holds a reference to, and the log of effects. *)
Record State : Type := mkState {
  guard : SessionGuard;
  ctx : HttpContext;
  log : list Effect
}.

(** ** The monad of guard methods *)

Definition M (A : Type) : Type := State -> Completion A * State.

#[global] Instance M_ret : MRet M := fun A a st => (Return a, st).

#[global] Instance M_bind : MBind M := fun A B f m st =>
  match m st with
  | (Return a, st') => f a st'
  | (Throw e, st') => (Throw e, st')
  end.

Definition throw {A : Type} (e : Exception) : M A := fun st => (Throw e, st).

Definition gets {A : Type} (f : State -> A) : M A := fun st => (Return (f st), st).

Definition modify (f : State -> State) : M unit := fun st => (Return tt, f st).

(** [try { body } catch (error) { handler }] *)
Definition try_catch {A : Type} (body : M A) (handler : Exception -> M A) : M A :=
  fun st =>
    match body st with
    | (Return a, st') => (Return a, st')
    | (Throw e, st') => handler e st'
    end.

(** The completion of a call and the state it leaves. *)
Definition result {A : Type} (r : Completion A * State) : Completion A := fst r.
Definition after {A : Type} (r : Completion A * State) : State := snd r.

(** *** Field assignments *)

Definition with_guard (f : SessionGuard -> SessionGuard) (st : State) : State :=
  {| guard := f (guard st); ctx := ctx st; log := log st |}.

Definition with_session (f : Session -> Session) (st : State) : State :=
  {| guard := guard st;
     ctx := {| session := f <$> session (ctx st);
               request_cookies := request_cookies (ctx st);
               response_cookies := response_cookies (ctx st) |};
     log := log st |}.

Definition with_response_cookies
    (f : gmap string ResponseCookie -> gmap string ResponseCookie)
    (st : State) : State :=
  {| guard := guard st;
     ctx := {| session := session (ctx st);
               request_cookies := request_cookies (ctx st);
               response_cookies := f (response_cookies (ctx st)) |};
     log := log st |}.

Definition record (e : Effect) : M unit :=
  modify (fun st => {| guard := guard st; ctx := ctx st; log := log st ++ [e] |}).

Definition set_authenticationAttempted (b : bool) (g : SessionGuard) : SessionGuard :=
  {| name := name g; userProvider := userProvider g;
     authenticationAttempted := b; isAuthenticated := isAuthenticated g;
     viaRemember := viaRemember g; attemptedViaRemember := attemptedViaRemember g;
     isLoggedOut := isLoggedOut g; user := user g |}.

Definition set_attemptedViaRemember (b : bool) (g : SessionGuard) : SessionGuard :=
  {| name := name g; userProvider := userProvider g;
     authenticationAttempted := authenticationAttempted g;
     isAuthenticated := isAuthenticated g;
     viaRemember := viaRemember g; attemptedViaRemember := b;
     isLoggedOut := isLoggedOut g; user := user g |}.

(** The four assignments at the head of [#authenticationSucceeded]. *)
Definition set_authenticated (u : option User) (via : bool) (g : SessionGuard)
    : SessionGuard :=
  {| name := name g; userProvider := userProvider g;
     authenticationAttempted := authenticationAttempted g;
     isAuthenticated := true;
     viaRemember := via; attemptedViaRemember := attemptedViaRemember g;
     isLoggedOut := false; user := u |}.

(** *** The collaborators' primitives *)

Definition emit (event : SessionGuardEvent) : M unit := record (Emit event).

Definition session_get (s : Session) (key : string) : M (option UserId) :=
  record (SessionGet key);; mret (values s !! key).

Definition session_put (key : string) (v : UserId) : M unit :=
  record (SessionPut key v);; modify (with_session (Session_put key v)).

Definition session_regenerate : M unit :=
  record SessionRegenerate;; modify (with_session Session_regenerate).

Definition request_encryptedCookie (key : string) : M (option string) :=
  record (RequestEncryptedCookie key);;
  gets (fun st => request_cookies (ctx st) !! key).

Definition response_encryptedCookie (key v : string) (http_only : bool) : M unit :=
  record (ResponseEncryptedCookie key v http_only);;
  modify (with_response_cookies
            (insert key {| cookie_value := v; httpOnly := http_only |})).

Definition provider_findById (id : UserId) : M (option ProviderUser) :=
  record (ProviderFindById id);;
  gets (fun st => findById (userProvider (guard st)) id).

Definition provider_verifyRememberToken (secret : string) : M (option RememberMeToken) :=
  record (ProviderVerifyRememberToken secret);;
  gets (fun st => verifyRememberToken (userProvider (guard st)) secret).

Definition provider_recycleRememberToken (u : option User) (ident : string)
    : M RememberMeToken :=
  record (ProviderRecycleRememberToken u ident);;
  gets (fun st => recycleRememberToken (userProvider (guard st)) u ident).

Definition provider_createUserForGuard (u : option User) : M ProviderUser :=
  record (ProviderCreateUserForGuard u);;
  gets (fun st => createUserForGuard (userProvider (guard st)) u).

(** ** The methods of [SessionGuard] *)

(** The double quote character, for messages that quote a package name. *)
Definition dquote : string := String (Ascii.ascii_of_nat 34) EmptyString.

Definition config_error : Exception :=
  RuntimeException
    ("Cannot authenticate user. Install and configure " +:+ dquote
       +:+ "@adonisjs/session" +:+ dquote +:+ " package").

Definition unauthorized : Exception :=
  E_UNAUTHORIZED_ACCESS "Invalid or expired user session" driverName.

(** [#getSession()] *)
Definition getSession : M Session :=
  s ← gets (fun st => session (ctx st));
  match s with
  | None => throw config_error
  | Some s => mret s
  end.

(** [#authenticationFailed(sessionId)]: emits the event, returns the error. *)
Definition authenticationFailed (sid : string) : M Exception :=
  let error := unauthorized in
  n ← gets (fun st => name (guard st));
  emit (authentication_failed n error sid);;
  mret error.

(** [#authenticationSucceeded(sessionId, user, rememberMeToken?)] *)
Definition authenticationSucceeded (sid : string) (u : option User)
    (rememberMeToken : option RememberMeToken) : M unit :=
  modify (with_guard (set_authenticated u (bool_decide (is_Some rememberMeToken))));;
  n ← gets (fun st => name (guard st));
  emit (authentication_succeeded n sid u rememberMeToken).

(** [#authenticateViaId(userId, sessionId)] *)
Definition authenticateViaId (userId : UserId) (sid : string) : M (option User) :=
  providerUser ← provider_findById userId;
  match providerUser with
  | None => error ← authenticationFailed sid; throw error
  | Some providerUser =>
      authenticationSucceeded sid (getOriginal providerUser) None;;
      gets (fun st => user (guard st))
  end.

(** [#createSessionForUser(userId)] *)
Definition createSessionForUser (userId : UserId) : M unit :=
  _ ← getSession;
  key ← gets (fun st => sessionKeyName (guard st));
  session_put key userId;;
  session_regenerate.

(** [#createRememberMeCookie(value)] *)
Definition createRememberMeCookie (v : string) : M unit :=
  key ← gets (fun st => rememberMeKeyName (guard st));
  response_encryptedCookie key v true.

(** [#authenticateViaRememberCookie(rememberMeCookie, sessionId)].
    [this.user!] is read back from the guard and handed to the provider as it
    is: the non-null assertion is erased at run time.
    [recycledToken.value!.release()] raises a [TypeError] when the recycled
    token carries no value. *)
Definition authenticateViaRememberCookie (rememberMeCookie : string) (sid : string)
    : M (option User) :=
  token ← provider_verifyRememberToken rememberMeCookie;
  match token with
  | None => error ← authenticationFailed sid; throw error
  | Some token =>
      providerUser ← provider_findById (tokenableId token);
      match providerUser with
      | None => error ← authenticationFailed sid; throw error
      | Some providerUser =>
          let userId := getId providerUser in
          createSessionForUser userId;;
          authenticationSucceeded sid (getOriginal providerUser) (Some token);;
          this_user ← gets (fun st => user (guard st));
          recycledToken ← provider_recycleRememberToken this_user (identifier token);
          match value recycledToken with
          | None =>
              throw (TypeError "Cannot read properties of undefined (reading 'release')")
          | Some v => createRememberMeCookie v
          end;;
          gets (fun st => user (guard st))
      end
  end.

(** The test [this.user] of the source: the field holds a truthy value. *)
Definition js_truthy_user (u : option User) : bool :=
  match u with
  | Some u => js_truthy u
  | None => false
  end.

(** [getUserOrFail()]: [if (!this.user) throw ...; return this.user]. *)
Definition getUserOrFail : M User :=
  u ← gets (fun st => user (guard st));
  match u with
  | Some u => if js_truthy u then mret u else throw unauthorized
  | None => throw unauthorized
  end.

(** [authenticate()]. The promise resolves with [undefined] ([None]) when
    neither test lets a credential through, or when the user found is
    [undefined]. *)
Definition authenticate : M (option User) :=
  attempted ← gets (fun st => authenticationAttempted (guard st));
  if (attempted : bool) then (u ← getUserOrFail; mret (Some u))
  else
    modify (with_guard (set_authenticationAttempted true));;
    session ← getSession;
    n ← gets (fun st => name (guard st));
    emit (authentication_attempted n (sessionId session));;
    key ← gets (fun st => sessionKeyName (guard st));
    authUserId ← session_get session key;
    match js_if js_truthy_id authUserId with
    | Some authUserId => authenticateViaId authUserId (sessionId session)
    | None =>
        ckey ← gets (fun st => rememberMeKeyName (guard st));
        rememberMeCookie ← request_encryptedCookie ckey;
        match js_if js_truthy_string rememberMeCookie with
        | Some rememberMeCookie =>
            modify (with_guard (set_attemptedViaRemember true));;
            authenticateViaRememberCookie rememberMeCookie (sessionId session)
        | None => mret None
        end
    end.

(** [check()] *)
Definition check : M bool :=
  try_catch
    (authenticate;; mret true)
    (fun error =>
       if instanceof_E_UNAUTHORIZED_ACCESS error then mret false
       else throw error).

(** [AuthClientResponse] *)
Record AuthClientResponse : Type := mkAuthClientResponse {
  client_session : gmap string UserId
}.

(** [authenticateAsClient(user)] *)
Definition authenticateAsClient (u : option User) : M AuthClientResponse :=
  providerUser ← provider_createUserForGuard u;
  let userId := getId providerUser in
  key ← gets (fun st => sessionKeyName (guard st));
  mret {| client_session := {[ key := userId ]} |}.

(** ** Observations on a run *)

(** The guard as constructed for a request, before any method is called. *)
Definition State_new (n : string) (p : UserProvider) (c : HttpContext)
    (l : list Effect) : State :=
  {| guard := SessionGuard_new n p; ctx := c; log := l |}.

Definition is_failed (e : Effect) : bool :=
  match e with
  | Emit (authentication_failed _ _ _) => true
  | _ => false
  end.

Definition is_succeeded (e : Effect) : bool :=
  match e with
  | Emit (authentication_succeeded _ _ _ _) => true
  | _ => false
  end.

(** Number of entries of the log that satisfy [p]. *)
Definition count (p : Effect -> bool) (l : list Effect) : nat :=
  length (List.filter p l).

(** What every first call does before it looks at a credential. *)
Definition prologue (st : State) (s : Session) : list Effect :=
  [Emit (authentication_attempted (name (guard st)) (sessionId s));
   SessionGet (sessionKeyName (guard st))].

(** The effects of the remember-cookie path up to the recycling of the token. *)
Definition remember_effects (st : State) (s : Session) (ck : string)
    (tok : RememberMeToken) (pu : ProviderUser) : list Effect :=
  prologue st s ++
  [RequestEncryptedCookie (rememberMeKeyName (guard st));
   ProviderVerifyRememberToken ck;
   ProviderFindById (tokenableId tok);
   SessionPut (sessionKeyName (guard st)) (getId pu);
   SessionRegenerate;
   Emit (authentication_succeeded (name (guard st)) (sessionId s)
           (getOriginal pu) (Some tok));
   ProviderRecycleRememberToken (getOriginal pu) (identifier tok)].

Definition is_session_write (e : Effect) : bool :=
  match e with
  | SessionPut _ _ | SessionRegenerate => true
  | _ => false
  end.

Definition is_cookie_read (e : Effect) : bool :=
  match e with
  | RequestEncryptedCookie _ => true
  | _ => false
  end.

Definition is_cookie_write (e : Effect) : bool :=
  match e with
  | ResponseEncryptedCookie _ _ _ => true
  | _ => false
  end.

(** The call completed by throwing [E_UNAUTHORIZED_ACCESS]. *)
Definition raises_unauthorized {A : Type} (r : Completion A) : bool :=
  match r with
  | Throw e => instanceof_E_UNAUTHORIZED_ACCESS e
  | Return _ => false
  end.

(** The answer of the memoized path: the cached user when it is truthy. *)
Definition cached_user (g : SessionGuard) : Completion (option User) :=
  match user g with
  | Some u => if js_truthy u then Return (Some u) else Throw unauthorized
  | None => Throw unauthorized
  end.

(** What holds of the guard between two calls: a user is cached only on an
    authenticated guard, nothing is cached before the first attempt, and the
    user of an authenticated guard is the original of a user the provider
    found. *)
Definition consistent (st : State) : Prop :=
  (is_Some (user (guard st)) -> isAuthenticated (guard st) = true) /\
  (authenticationAttempted (guard st) = false ->
     user (guard st) = None /\ isAuthenticated (guard st) = false) /\
  (isAuthenticated (guard st) = true ->
     exists id pu, findById (userProvider (guard st)) id = Some pu /\
                   user (guard st) = getOriginal pu).

(** The log holds at most one success, and none before the first attempt. *)
Definition single_outcome (st : State) : Prop :=
  (authenticationAttempted (guard st) = false -> count is_succeeded (log st) = 0) /\
  count is_succeeded (log st) <= 1.

(** The public methods, as calls a request handler can make in any order. *)
Inductive Call : Type :=
| call_authenticate
| call_check
| call_getUserOrFail
| call_authenticateAsClient (u : option User).

Definition run_call (c : Call) (st : State) : State :=
  match c with
  | call_authenticate => after (authenticate st)
  | call_check => after (check st)
  | call_getUserOrFail => after (getUserOrFail st)
  | call_authenticateAsClient u => after (authenticateAsClient u st)
  end.

Definition run_calls (cs : list Call) (st : State) : State :=
  fold_left (fun st c => run_call c st) cs st.

End Guard.

(** ** A concrete request, used to run the model *)

(** The user model of the test factories (factories/lucid_user_provider.ts). *)
Module FactoryUser.
Record t : Type := mk {
  id : Z;
  username : string;
  email : string;
  password : option string
}.

(** [FactoryUser.createWithDefaults()], stored under the given id. *)
Definition createWithDefaults (i : Z) : t :=
  {| id := i; email := "foo@bar.com"; username := "foo";
     password := Some "secret"%string |}.
End FactoryUser.

(** Model instances are objects, hence truthy. *)
#[global] Instance FactoryUser_truthy : JsTruthy FactoryUser.t := fun _ => true.

(** A provider may as well hand back bare numbers as users: [0] is falsy. *)
#[global] Instance number_truthy : JsTruthy Z := fun n => negb (Z.eqb n 0).

Module Sample.

Definition foo : FactoryUser.t := FactoryUser.createWithDefaults 7.

Definition id_eqb (a b : UserId) : bool :=
  match a, b with
  | IdString x, IdString y => String.eqb x y
  | IdNumber x, IdNumber y => Z.eqb x y
  | IdBigInt x, IdBigInt y => Z.eqb x y
  | _, _ => false
  end.

Definition provider_user (u : FactoryUser.t) : @ProviderUser FactoryUser.t :=
  {| getId := IdNumber (FactoryUser.id u); getOriginal := Some u |}.

(** [createUserForGuard(user)] for the providers below. *)
Definition for_guard (u : option FactoryUser.t) : @ProviderUser FactoryUser.t :=
  match u with
  | Some u => provider_user u
  | None => {| getId := IdNumber 0; getOriginal := None |}
  end.

(** The token behind the cookie ["series.old"], owned by user 7. *)
Definition old_token : RememberMeToken :=
  {| identifier := "series"; tokenableId := IdNumber 7; value := None;
     expiresAt := 1000 |}.

(** A provider that knows user 7, accepts the cookie ["series.old"] and
    recycles a token into one whose secret is [fresh]. *)
Definition provider (fresh : option string) : @UserProvider FactoryUser.t :=
  {| findById := fun i => if id_eqb i (IdNumber 7) then Some (provider_user foo) else None;
     verifyRememberToken := fun c =>
       if String.eqb c "series.old" then Some old_token else None;
     recycleRememberToken := fun _ ident =>
       {| identifier := ident; tokenableId := IdNumber 7; value := fresh;
          expiresAt := 2000 |};
     createUserForGuard := for_guard |}.

(** A provider whose table has a user stored under the id 0. *)
Definition provider_zero : @UserProvider FactoryUser.t :=
  {| findById := fun i =>
       if id_eqb i (IdNumber 0) then Some (provider_user (FactoryUser.createWithDefaults 0))
       else None;
     verifyRememberToken := fun _ => None;
     recycleRememberToken := fun _ ident =>
       {| identifier := ident; tokenableId := IdNumber 0; value := None;
          expiresAt := 0 |};
     createUserForGuard := for_guard |}.

(** A provider whose users are bare numbers: the user stored under the id
    5 is the number [0], the one stored under the id 6 is [undefined]. *)
Definition provider_numbers : @UserProvider Z :=
  {| findById := fun i =>
       if id_eqb i (IdNumber 5)
       then Some {| getId := IdNumber 5; getOriginal := Some 0%Z |}
       else if id_eqb i (IdNumber 6)
       then Some {| getId := IdNumber 6; getOriginal := None |}
       else None;
     verifyRememberToken := fun _ => None;
     recycleRememberToken := fun _ ident =>
       {| identifier := ident; tokenableId := IdNumber 5; value := None;
          expiresAt := 0 |};
     createUserForGuard := fun u => {| getId := IdNumber 5; getOriginal := u |} |}.

Definition empty_session : Session :=
  {| sessionId := "sid-1"; values := ∅; regenerations := 0 |}.

Definition session_of (i : UserId) : Session :=
  {| sessionId := "sid-1"; values := {[ "auth_web"%string := i ]}; regenerations := 0 |}.

Definition context (s : option Session) (cookie : option string) : HttpContext :=
  {| session := s;
     request_cookies :=
       match cookie with
       | Some c => {[ "remember_web"%string := c ]}
       | None => ∅
       end;
     response_cookies := ∅ |}.

(** The guard named ["web"], freshly constructed on a context. *)
Definition fresh (p : @UserProvider FactoryUser.t) (c : HttpContext)
    : @State FactoryUser.t :=
  State_new "web" p c [].

(** The guard named ["web"] of the provider of numbers. *)
Definition fresh_numbers (c : HttpContext) : @State Z :=
  State_new "web" provider_numbers c [].

End Sample.

(** ** Further observations on a run *)

Section Observations.

Context {User : Type} {truthy_user : JsTruthy User}.

Definition is_attempted (e : @Effect User) : bool :=
  match e with
  | Emit (authentication_attempted _ _) => true
  | _ => false
  end.

(** The value the session of a context holds under a key, if there is a
    session and the key is set. *)
Definition session_value (c : HttpContext) (key : string) : option UserId :=
  match session c with
  | Some s => values s !! key
  | None => None
  end.

(** What holds of a guard constructed with name [n] and provider [p] on the
    context [c], after any number of calls: the constructor's fields are
    kept, [isLoggedOut] is never set, the guard is as constructed until the
    first attempt, the flags are ordered, and the context is the one of the
    request unless the remember cookie authenticated the request. *)
Definition settled (n : string) (p : @UserProvider User) (c : HttpContext)
    (st : @State User) : Prop :=
  name (guard st) = n /\
  userProvider (guard st) = p /\
  isLoggedOut (guard st) = false /\
  (authenticationAttempted (guard st) = false -> guard st = SessionGuard_new n p) /\
  (viaRemember (guard st) = true ->
     attemptedViaRemember (guard st) = true /\ isAuthenticated (guard st) = true) /\
  (attemptedViaRemember (guard st) = true -> authenticationAttempted (guard st) = true) /\
  (viaRemember (guard st) = false -> ctx st = c) /\
  request_cookies (ctx st) = request_cookies c /\
  (forall k, k <> sessionKeyName (SessionGuard_new n p) ->
             session_value (ctx st) k = session_value c k) /\
  (forall k, k <> rememberMeKeyName (SessionGuard_new n p) ->
             response_cookies (ctx st) !! k = response_cookies c !! k).

(** What holds of the events in the log of a guard that started with an
    empty log: one attempt at most, and one outcome at most, after it. *)
Definition events_in_order (st : @State User) : Prop :=
  (authenticationAttempted (guard st) = false ->
     count is_attempted (log st) = 0 /\ isAuthenticated (guard st) = false) /\
  count is_attempted (log st) <= 1 /\
  count is_succeeded (log st) + count is_failed (log st) <= count is_attempted (log st) /\
  (isAuthenticated (guard st) = true <-> count is_succeeded (log st) = 1).


(** Where the events of a log have brought the request: no attempt
    announced yet, an attempt announced, an outcome announced. *)
Inductive Phase : Type := Unattempted | Attempting | Decided.

(** The phase after one more effect; [None] when an event comes out of
    order: a second attempt, an outcome before the attempt, a second
    outcome. Effects that are no events leave the phase as it is. *)
Definition next_phase (ph : Phase) (e : @Effect User) : option Phase :=
  if is_attempted e then
    match ph with
    | Unattempted => Some Attempting
    | _ => None
    end
  else if is_succeeded e || is_failed e then
    match ph with
    | Attempting => Some Decided
    | _ => None
    end
  else Some ph.

(** The phase a log leads to, read from its first effect on. *)
Fixpoint phase_after (ph : Phase) (l : list (@Effect User)) : option Phase :=
  match l with
  | [] => Some ph
  | e :: l' =>
      match next_phase ph e with
      | Some ph' => phase_after ph' l'
      | None => None
      end
  end.

(** The context of a simulated request: the payload computed by
    [authenticateAsClient] is laid over the values [vals] of a session. *)
Definition client_context (payload : AuthClientResponse) (sid : string)
    (vals : gmap string UserId) (cookies : gmap string string) : HttpContext :=
  {| session := Some {| sessionId := sid;
                        values := client_session payload ∪ vals;
                        regenerations := 0 |};
     request_cookies := cookies;
     response_cookies := ∅ |}.

(** The context of a later request of the same session: the store hands
    back the session as the earlier request left it, the client sends the
    cookies [cookies]. *)
Definition next_request (c : HttpContext) (cookies : gmap string string) : HttpContext :=
  {| session := session c; request_cookies := cookies; response_cookies := ∅ |}.

End Observations.

(** ** The [Auth] class: one instance per mapping and per request *)

Module AuthClass.

Section Auth.

(** [Instance] holds whatever the manager answers: the source types it
    [any], so [undefined] may be among its values. *)
Context {Ctx Instance : Type}.

(** What [use] does to its collaborators: a line on [ctx.logger], a call of
    [manager.makeMapping]. *)
Inductive AuthEffect : Type :=
| LoggerTrace (message : string) (mapping : string)
| MakeMapping (mapping : string).

(** [AuthManagerContract]: [makeMapping(ctx, mapping)] builds an instance or
    throws; its answer may depend on what happened before, given as the
    effects so far. *)
Record AuthManagerContract : Type := mkAuthManagerContract {
  makeMapping : list AuthEffect -> Ctx -> string -> Completion Instance
}.

(** The fields of the class, with the effects made so far. *)
Record Auth : Type := mkAuth {
  manager : AuthManagerContract;
  ctx : Ctx;
  mappingsCache : gmap string Instance;
  effects : list AuthEffect
}.

(** [new Auth(manager, ctx)] *)
Definition Auth_new (m : AuthManagerContract) (c : Ctx) : Auth :=
  {| manager := m; ctx := c; mappingsCache := ∅; effects := [] |}.

(** [use(mapping)]. The value returned is [mappingsCache.get(mapping)]:
    [Some i] is the entry [i] of the map, [None] the [undefined] that [get]
    gives for a key the map does not have. *)
Definition use (mapping : string) (a : Auth) : Completion (option Instance) * Auth :=
  match mappingsCache a !! mapping with
  | Some _ => (Return (mappingsCache a !! mapping), a)
  | None =>
      let traced := effects a ++ [LoggerTrace "instantiating auth mapping" mapping] in
      match makeMapping (manager a) traced (ctx a) mapping with
      | Throw e =>
          (Throw e,
           {| manager := manager a; ctx := ctx a;
              mappingsCache := mappingsCache a;
              effects := traced ++ [MakeMapping mapping] |})
      | Return i =>
          let a' := {| manager := manager a; ctx := ctx a;
                       mappingsCache := <[mapping := i]> (mappingsCache a);
                       effects := traced ++ [MakeMapping mapping] |} in
          (Return (mappingsCache a' !! mapping), a')
      end
  end.

(** A handler asking for mappings one after the other. *)
Definition uses (mappings : list string) (a : Auth) : Auth :=
  fold_left (fun a m => snd (use m a)) mappings a.

(** How often the manager was asked for a mapping. *)
Definition asked (mapping : string) (l : list AuthEffect) : nat :=
  length (List.filter
            (fun e => match e with
                      | MakeMapping m => String.eqb m mapping
                      | LoggerTrace _ _ => false
                      end) l).

(** How often the instantiation of a mapping was traced. *)
Definition traced (mapping : string) (l : list AuthEffect) : nat :=
  length (List.filter
            (fun e => match e with
                      | LoggerTrace _ m => String.eqb m mapping
                      | MakeMapping _ => false
                      end) l).

End Auth.

End AuthClass.

(** A manager that numbers the instances it builds, and refuses the mapping
    ["basic"]. *)
Module SampleAuth.

Definition manager : @AuthClass.AuthManagerContract unit nat :=
  {| AuthClass.makeMapping := fun history _ mapping =>
       if String.eqb mapping "basic" then Throw (RuntimeException "Invalid mapping")
       else Return (length history) |}.

Definition steady : @AuthClass.AuthManagerContract unit nat :=
  {| AuthClass.makeMapping := fun history _ _ => Return (length history) |}.


End SampleAuth.

(** * Properties of the guard *)

(** ** Unfolding a run *)

Ltac unfold_guard :=
  cbv [authenticate check getUserOrFail authenticateViaId
       authenticateViaRememberCookie createSessionForUser createRememberMeCookie
       authenticationFailed authenticationSucceeded getSession authenticateAsClient
       session_get session_put session_regenerate request_encryptedCookie
       response_encryptedCookie provider_findById provider_verifyRememberToken
       provider_recycleRememberToken provider_createUserForGuard
       emit record gets modify throw try_catch mbind M_bind mret M_ret
       with_guard with_session with_response_cookies
       sessionKeyName rememberMeKeyName].

Ltac fields :=
  cbn [guard ctx log name userProvider authenticationAttempted isAuthenticated
       viaRemember attemptedViaRemember isLoggedOut user
       session request_cookies response_cookies
       set_authenticationAttempted set_attemptedViaRemember set_authenticated
       fmap option_fmap option_map fst snd result after].

(** Names the components of a state, so that the fields read back compute. *)
Ltac expose st :=
  destruct st as [[? ? ? ? ? ? ? ?] [? ? ?] ?];
  unfold sessionKeyName, rememberMeKeyName in *;
  cbn [guard ctx log name userProvider authenticationAttempted isAuthenticated
       viaRemember attemptedViaRemember isLoggedOut user
       session request_cookies response_cookies] in *;
  subst.

Ltac run := unfold_guard; fields; rewrite <- ?app_assoc; cbn [app].

Section Paths.

Context {User : Type} {truthy_user : JsTruthy User}.

Implicit Types (st : @State User) (g : @SessionGuard User) (p : @UserProvider User).
Implicit Types (c : HttpContext) (l : list (@Effect User)) (s : Session).

(** ** One lemma per path through [authenticate] *)

(** The memoized path: [authenticationAttempted] is already set. *)
Lemma authenticate_memoized st :
  authenticationAttempted (guard st) = true ->
  authenticate st = (cached_user (guard st), st).
Proof.
  intros Ha. unfold cached_user. expose st. run.
  destruct user0 as [u|]; [destruct (js_truthy u)|]; reflexivity.
Qed.

(** No session on the context: the flag is set, then [#getSession] throws. *)
Lemma authenticate_no_session st :
  authenticationAttempted (guard st) = false ->
  session (ctx st) = None ->
  authenticate st =
    (Throw config_error,
     {| guard := set_authenticationAttempted true (guard st);
        ctx := ctx st; log := log st |}).
Proof.
  intros Ha Hs. expose st. reflexivity.
Qed.

Lemma authenticate_via_id_found st s uid pu :
  authenticationAttempted (guard st) = false ->
  session (ctx st) = Some s ->
  js_if js_truthy_id (values s !! sessionKeyName (guard st)) = Some uid ->
  findById (userProvider (guard st)) uid = Some pu ->
  authenticate st =
    (Return (getOriginal pu),
     {| guard := set_authenticated (getOriginal pu) false
                   (set_authenticationAttempted true (guard st));
        ctx := ctx st;
        log := log st ++ prologue st s ++
               [ProviderFindById uid;
                Emit (authentication_succeeded (name (guard st)) (sessionId s)
                        (getOriginal pu) None)] |}).
Proof.
  intros Ha Hs Hid Hf. unfold prologue. expose st. run.
  rewrite Hid. run. rewrite Hf. run. reflexivity.
Qed.

Lemma authenticate_via_id_missing st s uid :
  authenticationAttempted (guard st) = false ->
  session (ctx st) = Some s ->
  js_if js_truthy_id (values s !! sessionKeyName (guard st)) = Some uid ->
  findById (userProvider (guard st)) uid = None ->
  authenticate st =
    (Throw unauthorized,
     {| guard := set_authenticationAttempted true (guard st);
        ctx := ctx st;
        log := log st ++ prologue st s ++
               [ProviderFindById uid;
                Emit (authentication_failed (name (guard st)) unauthorized
                        (sessionId s))] |}).
Proof.
  intros Ha Hs Hid Hf. unfold prologue. expose st. run.
  rewrite Hid. run. rewrite Hf. run. reflexivity.
Qed.

Lemma authenticate_no_credentials st s :
  authenticationAttempted (guard st) = false ->
  session (ctx st) = Some s ->
  js_if js_truthy_id (values s !! sessionKeyName (guard st)) = None ->
  js_if js_truthy_string
    (request_cookies (ctx st) !! rememberMeKeyName (guard st)) = None ->
  authenticate st =
    (Return None,
     {| guard := set_authenticationAttempted true (guard st);
        ctx := ctx st;
        log := log st ++ prologue st s ++
               [RequestEncryptedCookie (rememberMeKeyName (guard st))] |}).
Proof.
  intros Ha Hs Hid Hck. unfold prologue. expose st. run.
  rewrite Hid. run. rewrite Hck. run. reflexivity.
Qed.

Lemma authenticate_cookie_rejected st s ck :
  authenticationAttempted (guard st) = false ->
  session (ctx st) = Some s ->
  js_if js_truthy_id (values s !! sessionKeyName (guard st)) = None ->
  js_if js_truthy_string
    (request_cookies (ctx st) !! rememberMeKeyName (guard st)) = Some ck ->
  verifyRememberToken (userProvider (guard st)) ck = None ->
  authenticate st =
    (Throw unauthorized,
     {| guard := set_attemptedViaRemember true
                   (set_authenticationAttempted true (guard st));
        ctx := ctx st;
        log := log st ++ prologue st s ++
               [RequestEncryptedCookie (rememberMeKeyName (guard st));
                ProviderVerifyRememberToken ck;
                Emit (authentication_failed (name (guard st)) unauthorized
                        (sessionId s))] |}).
Proof.
  intros Ha Hs Hid Hck Hv. unfold prologue. expose st. run.
  rewrite Hid. run. rewrite Hck. run. rewrite Hv. run. reflexivity.
Qed.

Lemma authenticate_cookie_owner_missing st s ck tok :
  authenticationAttempted (guard st) = false ->
  session (ctx st) = Some s ->
  js_if js_truthy_id (values s !! sessionKeyName (guard st)) = None ->
  js_if js_truthy_string
    (request_cookies (ctx st) !! rememberMeKeyName (guard st)) = Some ck ->
  verifyRememberToken (userProvider (guard st)) ck = Some tok ->
  findById (userProvider (guard st)) (tokenableId tok) = None ->
  authenticate st =
    (Throw unauthorized,
     {| guard := set_attemptedViaRemember true
                   (set_authenticationAttempted true (guard st));
        ctx := ctx st;
        log := log st ++ prologue st s ++
               [RequestEncryptedCookie (rememberMeKeyName (guard st));
                ProviderVerifyRememberToken ck;
                ProviderFindById (tokenableId tok);
                Emit (authentication_failed (name (guard st)) unauthorized
                        (sessionId s))] |}).
Proof.
  intros Ha Hs Hid Hck Hv Hf. unfold prologue. expose st. run.
  rewrite Hid. run. rewrite Hck. run. rewrite Hv. run. rewrite Hf. run. reflexivity.
Qed.

Lemma authenticate_via_cookie st s ck tok pu v :
  authenticationAttempted (guard st) = false ->
  session (ctx st) = Some s ->
  js_if js_truthy_id (values s !! sessionKeyName (guard st)) = None ->
  js_if js_truthy_string
    (request_cookies (ctx st) !! rememberMeKeyName (guard st)) = Some ck ->
  verifyRememberToken (userProvider (guard st)) ck = Some tok ->
  findById (userProvider (guard st)) (tokenableId tok) = Some pu ->
  value (recycleRememberToken (userProvider (guard st)) (getOriginal pu)
           (identifier tok)) = Some v ->
  authenticate st =
    (Return (getOriginal pu),
     {| guard := set_authenticated (getOriginal pu) true
                   (set_attemptedViaRemember true
                      (set_authenticationAttempted true (guard st)));
        ctx := {| session :=
                    Some (Session_regenerate
                            (Session_put (sessionKeyName (guard st)) (getId pu) s));
                  request_cookies := request_cookies (ctx st);
                  response_cookies :=
                    <[rememberMeKeyName (guard st) :=
                        {| cookie_value := v; httpOnly := true |}]>
                      (response_cookies (ctx st)) |};
        log := log st ++ remember_effects st s ck tok pu ++
               [ResponseEncryptedCookie (rememberMeKeyName (guard st)) v true] |}).
Proof.
  intros Ha Hs Hid Hck Hv Hf Hr. unfold remember_effects, prologue. expose st. run.
  rewrite Hid. run. rewrite Hck. run. rewrite Hv. run. rewrite Hf. run.
  rewrite Hr. run. reflexivity.
Qed.

(** The recycled token carries no value: [value!.release()] throws after the
    session has been written and the guard marked as authenticated. *)
Lemma authenticate_via_cookie_no_value st s ck tok pu :
  authenticationAttempted (guard st) = false ->
  session (ctx st) = Some s ->
  js_if js_truthy_id (values s !! sessionKeyName (guard st)) = None ->
  js_if js_truthy_string
    (request_cookies (ctx st) !! rememberMeKeyName (guard st)) = Some ck ->
  verifyRememberToken (userProvider (guard st)) ck = Some tok ->
  findById (userProvider (guard st)) (tokenableId tok) = Some pu ->
  value (recycleRememberToken (userProvider (guard st)) (getOriginal pu)
           (identifier tok)) = None ->
  authenticate st =
    (Throw (TypeError "Cannot read properties of undefined (reading 'release')"),
     {| guard := set_authenticated (getOriginal pu) true
                   (set_attemptedViaRemember true
                      (set_authenticationAttempted true (guard st)));
        ctx := {| session :=
                    Some (Session_regenerate
                            (Session_put (sessionKeyName (guard st)) (getId pu) s));
                  request_cookies := request_cookies (ctx st);
                  response_cookies := response_cookies (ctx st) |};
        log := log st ++ remember_effects st s ck tok pu |}).
Proof.
  intros Ha Hs Hid Hck Hv Hf Hr. unfold remember_effects, prologue. expose st. run.
  rewrite Hid. run. rewrite Hck. run. rewrite Hv. run. rewrite Hf. run.
  rewrite Hr. run. reflexivity.
Qed.

(** ** [check], [getUserOrFail] and [authenticateAsClient] *)

(** [check] is [authenticate] followed by the test of the [catch] block. *)
Lemma check_unfold st :
  check st =
    (match result (authenticate st) with
     | Return _ => Return true
     | Throw e => if instanceof_E_UNAUTHORIZED_ACCESS e then Return false else Throw e
     end, after (authenticate st)).
Proof.
  unfold check, try_catch, result, after, mbind, M_bind, mret, M_ret.
  destruct (authenticate st) as [[v|e] st']; cbn; [reflexivity|].
  destruct (instanceof_E_UNAUTHORIZED_ACCESS e); reflexivity.
Qed.

Lemma getUserOrFail_unfold st :
  getUserOrFail st =
    (match user (guard st) with
     | Some u => if js_truthy u then Return u else Throw unauthorized
     | None => Throw unauthorized
     end, st).
Proof.
  expose st. run. destruct user0 as [u|]; [destruct (js_truthy u)|]; reflexivity.
Qed.

Lemma authenticateAsClient_unfold u st :
  authenticateAsClient u st =
    (Return {| client_session :=
                 {[ sessionKeyName (guard st) :=
                      getId (createUserForGuard (userProvider (guard st)) u) ]} |},
     {| guard := guard st; ctx := ctx st;
        log := log st ++ [ProviderCreateUserForGuard u] |}).
Proof. expose st. reflexivity. Qed.

(** ** Counting log entries *)

Lemma count_app (f : @Effect User -> bool) l1 l2 :
  count f (l1 ++ l2) = count f l1 + count f l2.
Proof. unfold count. rewrite List.filter_app. apply length_app. Qed.

(** ** Once an attempt has been made, the guard does not move *)

Lemma run_call_attempted call st :
  authenticationAttempted (guard st) = true ->
  guard (run_call call st) = guard st.
Proof.
  intros Ha. destruct call; unfold run_call.
  - rewrite (authenticate_memoized st Ha). reflexivity.
  - rewrite check_unfold, (authenticate_memoized st Ha). reflexivity.
  - rewrite getUserOrFail_unfold. reflexivity.
  - rewrite authenticateAsClient_unfold. reflexivity.
Qed.

Lemma run_calls_attempted cs st :
  authenticationAttempted (guard st) = true ->
  guard (run_calls cs st) = guard st.
Proof.
  revert st. induction cs as [|call cs IH]; intros st Ha; [reflexivity|].
  pose proof (run_call_attempted call st Ha) as Hg.
  change (guard (run_calls cs (run_call call st)) = guard st).
  rewrite IH; rewrite ?Hg; auto.
Qed.

End Paths.

(** ** Every path through [authenticate] *)

(** Splits a goal about [authenticate st] along the paths of the method and
    rewrites the call with the lemma of each path. *)
Ltac authenticate_paths st :=
  let Ha := fresh "Ha" in
  let Hs := fresh "Hs" in
  let Hid := fresh "Hid" in
  let Hck := fresh "Hck" in
  let Hv := fresh "Hv" in
  let Hf := fresh "Hf" in
  let Hr := fresh "Hr" in
  let s := fresh "s" in
  let uid := fresh "uid" in
  let ck := fresh "ck" in
  let tok := fresh "tok" in
  let pu := fresh "pu" in
  let v := fresh "v" in
  destruct (authenticationAttempted (guard st)) eqn:Ha;
  [ rewrite ?(authenticate_memoized st Ha)
  | destruct (session (ctx st)) as [s|] eqn:Hs;
    [ destruct (js_if js_truthy_id (values s !! sessionKeyName (guard st)))
        as [uid|] eqn:Hid;
      [ destruct (findById (userProvider (guard st)) uid) as [pu|] eqn:Hf;
        [ rewrite ?(authenticate_via_id_found st s uid pu Ha Hs Hid Hf)
        | rewrite ?(authenticate_via_id_missing st s uid Ha Hs Hid Hf) ]
      | destruct (js_if js_truthy_string
                    (request_cookies (ctx st) !! rememberMeKeyName (guard st)))
          as [ck|] eqn:Hck;
        [ destruct (verifyRememberToken (userProvider (guard st)) ck)
            as [tok|] eqn:Hv;
          [ destruct (findById (userProvider (guard st)) (tokenableId tok))
              as [pu|] eqn:Hf;
            [ destruct (value (recycleRememberToken (userProvider (guard st))
                                 (getOriginal pu) (identifier tok)))
                as [v|] eqn:Hr;
              [ rewrite ?(authenticate_via_cookie st s ck tok pu v Ha Hs Hid Hck Hv Hf Hr)
              | rewrite ?(authenticate_via_cookie_no_value st s ck tok pu
                            Ha Hs Hid Hck Hv Hf Hr) ]
            | rewrite ?(authenticate_cookie_owner_missing st s ck tok
                          Ha Hs Hid Hck Hv Hf) ]
          | rewrite ?(authenticate_cookie_rejected st s ck Ha Hs Hid Hck Hv) ]
        | rewrite ?(authenticate_no_credentials st s Ha Hs Hid Hck) ] ]
    | rewrite ?(authenticate_no_session st Ha Hs) ] ];
  cbn [result after fst snd guard ctx log
       set_authenticated set_attemptedViaRemember set_authenticationAttempted
       user isAuthenticated authenticationAttempted viaRemember name
       userProvider].

Section Invariants.

Context {User : Type} {truthy_user : JsTruthy User}.

Implicit Types (st : @State User) (g : @SessionGuard User) (p : @UserProvider User).
Implicit Types (c : HttpContext) (l : list (@Effect User)) (s : Session).

(** Whatever the path, the attempt is recorded. *)
Lemma authenticate_sets_attempted st :
  authenticationAttempted (guard (after (authenticate st))) = true.
Proof. authenticate_paths st; auto. Qed.

(** A second call finds the flag set: it changes nothing and answers from
    the cached user. *)
Lemma authenticate_again st :
  authenticate (after (authenticate st)) =
    (cached_user (guard (after (authenticate st))), after (authenticate st)).
Proof. apply authenticate_memoized, authenticate_sets_attempted. Qed.

(** ** The invariants of the guard *)

Lemma State_new_consistent n p c l : consistent (State_new n p c l).
Proof.
  unfold consistent. cbn. repeat split; try discriminate.
  intros [u Hu]. discriminate.
Qed.

Lemma State_new_single_outcome n p c : single_outcome (State_new n p c []).
Proof. split; cbn; [reflexivity | lia]. Qed.

Lemma authenticate_consistent st :
  consistent st -> consistent (after (authenticate st)).
Proof.
  intros (Hset & Hnone & Hfound). unfold consistent.
  destruct (authenticationAttempted (guard st)) eqn:Hfirst.
  - rewrite (authenticate_memoized st Hfirst). cbn [after snd]. rewrite Hfirst.
    repeat split; try discriminate; assumption.
  - destruct (Hnone eq_refl) as [Hu Hauth].
    authenticate_paths st; try discriminate;
      (split; [ | split ]); try discriminate; auto; eauto.
Qed.

Lemma authenticate_single_outcome st :
  single_outcome st -> single_outcome (after (authenticate st)).
Proof.
  intros [Hzero Hle]. unfold single_outcome.
  authenticate_paths st;
    (split; [ intros; congruence | ]); try exact Hle;
    specialize (Hzero eq_refl);
    unfold remember_effects, prologue; rewrite ?count_app, ?Hzero; cbn; lia.
Qed.

Lemma run_call_consistent call st : consistent st -> consistent (run_call call st).
Proof.
  intros H. destruct call; unfold run_call.
  - apply authenticate_consistent, H.
  - rewrite check_unfold. apply authenticate_consistent, H.
  - rewrite getUserOrFail_unfold. exact H.
  - rewrite authenticateAsClient_unfold. exact H.
Qed.

Lemma run_call_single_outcome call st :
  single_outcome st -> single_outcome (run_call call st).
Proof.
  intros H. destruct call; unfold run_call.
  - apply authenticate_single_outcome, H.
  - rewrite check_unfold. apply authenticate_single_outcome, H.
  - rewrite getUserOrFail_unfold. exact H.
  - rewrite authenticateAsClient_unfold. destruct H as [Hzero Hle].
    split; cbn [after snd guard log]; rewrite count_app; cbn.
    + intros Ha. rewrite (Hzero Ha). reflexivity.
    + lia.
Qed.

(** The provider of a guard is the one given to the constructor. *)
Lemma run_call_provider call st :
  userProvider (guard (run_call call st)) = userProvider (guard st).
Proof.
  destruct call; unfold run_call; rewrite ?check_unfold, ?getUserOrFail_unfold,
    ?authenticateAsClient_unfold; try reflexivity;
    authenticate_paths st; reflexivity.
Qed.

Lemma run_calls_provider cs st :
  userProvider (guard (run_calls cs st)) = userProvider (guard st).
Proof.
  revert st. induction cs as [|call cs IH]; intros st; [reflexivity|].
  change (run_calls (call :: cs) st) with (run_calls cs (run_call call st)).
  rewrite IH. apply run_call_provider.
Qed.

Lemma run_calls_consistent cs st : consistent st -> consistent (run_calls cs st).
Proof.
  revert st. induction cs as [|call cs IH]; intros st H; [exact H|].
  apply (IH (run_call call st)), run_call_consistent, H.
Qed.

Lemma run_calls_single_outcome cs st :
  single_outcome st -> single_outcome (run_calls cs st).
Proof.
  revert st. induction cs as [|call cs IH]; intros st H; [exact H|].
  apply (IH (run_call call st)), run_call_single_outcome, H.
Qed.

(** ** The [if (x)] tests *)

Lemma js_if_truthy_id (o : option UserId) uid :
  o = Some uid -> js_truthy_id uid = true -> js_if js_truthy_id o = Some uid.
Proof. intros -> Ht. cbn. rewrite Ht. reflexivity. Qed.

Lemma js_if_nonempty (o : option string) ck :
  o = Some ck -> ck <> ""%string -> js_if js_truthy_string o = Some ck.
Proof.
  intros -> Hne. cbn. unfold js_truthy_string.
  destruct (String.eqb_spec ck ""); [contradiction | reflexivity].
Qed.

End Invariants.

(** * The properties of the specification *)

(** C1, as the code has it. In every state reachable from a fresh guard, a
    second call to [authenticate()] performs no I/O and changes nothing (the
    state it leaves, log included, is the state the first call left), and it
    returns the cached user when one is set and truthy, and throws
    Unauthorized otherwise; it returns a user only on an authenticated guard.
    When the first call returned a truthy user or threw Unauthorized, the
    second call yields that same result. *)
Theorem authenticate_repeated {User : Type} {truthy_user : JsTruthy User}
    (n : string) (p : @UserProvider User) (c : HttpContext)
    (l : list (@Effect User)) (cs : list (@Call User)) :
  let st := run_calls cs (State_new n p c l) in
  let first := authenticate st in
  let second := authenticate (after first) in
  after second = after first /\
  result second =
    match user (guard (after first)) with
    | Some u => if js_truthy u then Return (Some u) else Throw unauthorized
    | None => Throw unauthorized
    end /\
  ((exists u, result second = Return (Some u)) ->
   isAuthenticated (guard (after first)) = true) /\
  (forall u, result first = Return (Some u) -> js_truthy u = true ->
             result second = result first) /\
  (raises_unauthorized (result first) = true -> result second = result first).
Proof.
  intros st first second. subst first second.
  pose proof (run_calls_consistent cs _ (State_new_consistent n p c l)) as Hst.
  fold st in Hst.
  pose proof (authenticate_consistent st Hst) as (Hset & _ & _).
  destruct Hst as (_ & Hnone & _).
  rewrite authenticate_again. unfold cached_user. cbn [result after fst snd].
  split; [reflexivity|]. split; [reflexivity|]. split.
  - intros [u Hu]. apply Hset.
    destruct (user (guard (after (authenticate st)))) as [u'|]; [eauto | discriminate].
  - clear Hset. split.
    + authenticate_paths st; intros u Hu Ht; try discriminate Hu.
      * unfold cached_user in *. destruct (user (guard st)) as [u'|];
          [destruct (js_truthy u') | ]; congruence.
      * injection Hu as Hu. rewrite Hu, Ht. reflexivity.
      * injection Hu as Hu. rewrite Hu, Ht. reflexivity.
    + authenticate_paths st; intros Hu; try discriminate Hu;
        try (destruct (Hnone eq_refl) as [-> _]); reflexivity.
Qed.

Lemma authenticate_repeated_witness :
  let st := Sample.fresh (Sample.provider None)
              (Sample.context (Some (Sample.session_of (IdNumber 7))) None) in
  result (authenticate st) = Return (Some Sample.foo) /\
  result (authenticate (after (authenticate st))) = result (authenticate st) /\
  after (authenticate (after (authenticate st))) = after (authenticate st).
Proof.
  pose proof (authenticate_repeated "web" (Sample.provider None)
                (Sample.context (Some (Sample.session_of (IdNumber 7))) None) [] [])
    as (Hsame & _ & _ & Hsucc & _).
  split; [reflexivity|]. split; [|exact Hsame].
  exact (Hsucc Sample.foo eq_refl eq_refl).
Defined.

(** C1 fails as stated. With a session but no user id in it and no remember
    cookie, the first [authenticate()] resolves with no user and the second
    throws Unauthorized; with no session on the context, the first throws the
    configuration error and the second throws Unauthorized; and when the
    user found for the session id is the falsy value [0], the first call
    returns it and the second, testing [!this.user], throws Unauthorized. *)
Lemma authenticate_twice_differs :
  let p := Sample.provider None in
  let bare := Sample.fresh p (Sample.context (Some Sample.empty_session) None) in
  let unconfigured := Sample.fresh p (Sample.context None None) in
  let falsy := Sample.fresh_numbers
                 (Sample.context (Some (Sample.session_of (IdNumber 5))) None) in
  result (authenticate bare) = Return None /\
  result (authenticate (after (authenticate bare))) = Throw unauthorized /\
  result (authenticate unconfigured) = Throw config_error /\
  result (authenticate (after (authenticate unconfigured))) = Throw unauthorized /\
  result (authenticate falsy) = Return (Some 0%Z) /\
  result (authenticate (after (authenticate falsy))) = Throw unauthorized /\
  result (authenticate (after (authenticate bare))) <> result (authenticate bare) /\
  result (authenticate (after (authenticate unconfigured)))
    <> result (authenticate unconfigured) /\
  result (authenticate (after (authenticate falsy))) <> result (authenticate falsy).
Proof.
  cbv zeta. repeat split; try reflexivity; vm_compute; congruence.
Qed.

(** C2, as the code has it. A first (non-memoized) call to [authenticate()]
    that throws Unauthorized, via the session id or via the remember cookie,
    emits exactly one [authentication_failed] event, carrying that error, as
    its last effect before the error reaches the caller; a first call that
    completes in any other way emits none. A memoized repeat of
    [authenticate()] and [getUserOrFail()] emit nothing at all, also when
    they throw Unauthorized: failure events count the failed attempts, not
    the Unauthorized errors raised. *)
Theorem failed_event_per_failed_attempt {User : Type} {truthy_user : JsTruthy User}
    (st : @State User) :
  (authenticationAttempted (guard st) = false ->
   let r := authenticate st in
   count is_failed (log (after r)) =
     count is_failed (log st) + (if raises_unauthorized (result r) then 1 else 0) /\
   (raises_unauthorized (result r) = true ->
    exists effects sid,
      result r = Throw unauthorized /\
      count is_failed effects = 0 /\
      log (after r) =
        log st ++ effects ++
        [Emit (authentication_failed (name (guard st)) unauthorized sid)])) /\
  (authenticationAttempted (guard st) = true ->
   log (after (authenticate st)) = log st) /\
  log (after (getUserOrFail st)) = log st.
Proof.
  split; [|split].
  - intros Hfirst r. subst r.
    authenticate_paths st; try discriminate Hfirst;
      unfold remember_effects, prologue; rewrite ?count_app;
      (split; [cbn; lia | cbn; try discriminate; intros _]).
    + eexists [_; _; _], _. repeat split; reflexivity.
    + eexists [_; _; _; _; _], _. repeat split; reflexivity.
    + eexists [_; _; _; _], _. repeat split; reflexivity.
  - intros Ha. rewrite (authenticate_memoized st Ha). reflexivity.
  - rewrite getUserOrFail_unfold. reflexivity.
Qed.

Lemma failed_event_per_failed_attempt_witness :
  let st := Sample.fresh (Sample.provider None)
              (Sample.context (Some Sample.empty_session) (Some "forged"%string)) in
  count is_failed (log (after (authenticate st))) = 1 /\
  log (after (authenticate (after (authenticate st)))) = log (after (authenticate st)).
Proof.
  cbv zeta. split.
  - exact (proj1 (proj1 (failed_event_per_failed_attempt
                           (Sample.fresh (Sample.provider None)
                              (Sample.context (Some Sample.empty_session)
                                 (Some "forged"%string)))) eq_refl)).
  - exact (proj1 (proj2 (failed_event_per_failed_attempt
                           (after (authenticate
                              (Sample.fresh (Sample.provider None)
                                 (Sample.context (Some Sample.empty_session)
                                    (Some "forged"%string))))))) eq_refl).
Defined.

(** C2 fails as stated: on a freshly constructed guard [getUserOrFail()]
    throws Unauthorized and the log stays empty; after a first
    [authenticate()] has failed with one failure event, the memoized repeat
    throws Unauthorized again and the count of failure events is still one. *)
Lemma unauthorized_without_event :
  let fresh := Sample.fresh (Sample.provider None)
                 (Sample.context (Some Sample.empty_session) (Some "forged"%string)) in
  let once := after (authenticate fresh) in
  let twice := after (authenticate once) in
  result (getUserOrFail fresh) = Throw unauthorized /\
  count is_failed (log (after (getUserOrFail fresh))) = 0 /\
  result (authenticate fresh) = Throw unauthorized /\
  result (authenticate once) = Throw unauthorized /\
  count is_failed (log twice) = 1.
Proof.
  cbv zeta. repeat split; reflexivity.
Qed.




(** C4, as the code has it. For every request whose session has no user-id
    entry and whose non-empty remember cookie fails provider verification, a
    first call to [authenticate()] throws Unauthorized, leaves the context as
    it was (no put, no regenerate, no cookie written) and emits exactly one
    [authentication_failed] event, as its last effect; the same holds when the
    token verifies but the provider finds no user for the token's owner. *)
Theorem authenticate_rejected_cookie {User : Type} {truthy_user : JsTruthy User}
    (n : string) (p : @UserProvider User) (c : HttpContext)
    (l : list (@Effect User)) (s : Session) (ck : string) :
  session c = Some s ->
  values s !! sessionKeyName (SessionGuard_new n p) = None ->
  request_cookies c !! rememberMeKeyName (SessionGuard_new n p) = Some ck ->
  ck <> ""%string ->
  verifyRememberToken p ck = None \/
  (exists tok, verifyRememberToken p ck = Some tok /\
               findById p (tokenableId tok) = None) ->
  let r := authenticate (State_new n p c l) in
  result r = Throw unauthorized /\
  ctx (after r) = c /\
  user (guard (after r)) = None /\
  isAuthenticated (guard (after r)) = false /\
  count is_session_write (log (after r)) = count is_session_write l /\
  count is_cookie_write (log (after r)) = count is_cookie_write l /\
  count is_failed (log (after r)) = S (count is_failed l) /\
  exists effects,
    log (after r) =
      l ++ effects ++ [Emit (authentication_failed n unauthorized (sessionId s))].
Proof.
  intros Hs Hid Hck Hne Hbad r. subst r.
  pose proof (js_if_nonempty _ _ Hck Hne) as Hif.
  assert (Hno : js_if js_truthy_id
                  (values s !! sessionKeyName (guard (State_new n p c l))) = None)
    by (cbn [State_new guard]; rewrite Hid; reflexivity).
  destruct Hbad as [Hv | (tok & Hv & Hf)].
  - rewrite (authenticate_cookie_rejected (State_new n p c l) s ck)
      by (reflexivity || assumption).
    cbn [result after fst snd guard ctx log State_new set_attemptedViaRemember
         set_authenticationAttempted user isAuthenticated prologue name
         SessionGuard_new app].
    rewrite !count_app. repeat split; try (cbn; lia).
    eexists [_; _; _; _]. reflexivity.
  - rewrite (authenticate_cookie_owner_missing (State_new n p c l) s ck tok)
      by (reflexivity || assumption).
    cbn [result after fst snd guard ctx log State_new set_attemptedViaRemember
         set_authenticationAttempted user isAuthenticated prologue name
         SessionGuard_new app].
    rewrite !count_app. repeat split; try (cbn; lia).
    eexists [_; _; _; _; _]. reflexivity.
Qed.

Lemma authenticate_rejected_cookie_witness :
  let st := Sample.fresh (Sample.provider None)
              (Sample.context (Some Sample.empty_session) (Some "forged"%string)) in
  result (authenticate st) = Throw unauthorized /\
  ctx (after (authenticate st)) =
    Sample.context (Some Sample.empty_session) (Some "forged"%string) /\
  count is_failed (log (after (authenticate st))) = 1.
Proof.
  pose proof (authenticate_rejected_cookie "web" (Sample.provider None)
                (Sample.context (Some Sample.empty_session) (Some "forged"%string)) []
                Sample.empty_session "forged" eq_refl eq_refl eq_refl
                ltac:(discriminate) (or_introl eq_refl)) as H.
  cbv zeta in H. destruct H as (Hres & Hctx & _ & _ & _ & _ & Hfail & _).
  repeat split; assumption.
Defined.

(** C4 fails as stated: the remember cookie is the empty string, which the
    provider rejects, and the session has no user id; [if (rememberMeCookie)]
    takes the empty string for an absent cookie, so the call resolves with no
    user, the provider is never asked and no failure event is emitted. *)
Lemma authenticate_empty_cookie :
  let p := Sample.provider None in
  let st := Sample.fresh p (Sample.context (Some Sample.empty_session) (Some ""%string)) in
  values Sample.empty_session !! sessionKeyName (guard st) = None /\
  request_cookies (ctx st) !! rememberMeKeyName (guard st) = Some ""%string /\
  verifyRememberToken p "" = None /\
  result (authenticate st) = Return None /\
  result (authenticate st) <> Throw unauthorized /\
  count is_failed (log (after (authenticate st))) = 0.
Proof.
  cbv zeta. repeat split; try reflexivity. vm_compute. congruence.
Qed.

(** C5. [check()] calls [authenticate()] and returns [true] when it completes
    without failure; it catches exactly [E_UNAUTHORIZED_ACCESS] and returns
    [false] for it; any other error is thrown on unchanged, in particular the
    configuration error raised when the context has no session. In every case
    [check()] leaves the state [authenticate()] left, and it never throws
    Unauthorized. *)
Theorem check_catches_only_unauthorized {User : Type} {truthy_user : JsTruthy User}
    (st : @State User) :
  after (check st) = after (authenticate st) /\
  (forall v, result (authenticate st) = Return v -> result (check st) = Return true) /\
  (forall m d, result (authenticate st) = Throw (E_UNAUTHORIZED_ACCESS m d) ->
               result (check st) = Return false) /\
  (forall e, result (authenticate st) = Throw e ->
             instanceof_E_UNAUTHORIZED_ACCESS e = false ->
             result (check st) = Throw e) /\
  (forall m d, result (check st) <> Throw (E_UNAUTHORIZED_ACCESS m d)) /\
  (authenticationAttempted (guard st) = false -> session (ctx st) = None ->
   result (check st) = Throw config_error).
Proof.
  rewrite check_unfold. cbn [result after fst snd].
  split; [reflexivity|].
  split; [intros v Hv; rewrite Hv; reflexivity|].
  split; [intros m d He; rewrite He; reflexivity|].
  split; [intros e He Hi; rewrite He, Hi; reflexivity|].
  split.
  - intros m d. destruct (result (authenticate st)) as [v|e]; [congruence|].
    destruct e; cbn; congruence.
  - intros Ha Hs. rewrite (authenticate_no_session st Ha Hs). reflexivity.
Qed.

Lemma check_catches_only_unauthorized_witness :
  result (check (Sample.fresh (Sample.provider None) (Sample.context None None)))
  = Throw config_error.
Proof.
  apply (check_catches_only_unauthorized
           (Sample.fresh (Sample.provider None) (Sample.context None None)));
    reflexivity.
Defined.

(** C6, as the code has it. For every request whose session store holds a
    truthy user id (a non-empty string, a non-zero number or big integer)
    under the guard's session key: if [findById] returns a user for that id, a
    first call to [authenticate()] returns that user, sets [isAuthenticated],
    leaves [viaRemember] false, and never reads the remember cookie; if
    [findById] returns null, the call throws Unauthorized after emitting the
    failure event. *)
Theorem authenticate_via_session_id {User : Type} {truthy_user : JsTruthy User}
    (n : string) (p : @UserProvider User) (c : HttpContext)
    (l : list (@Effect User)) (s : Session) (uid : UserId) :
  session c = Some s ->
  values s !! sessionKeyName (SessionGuard_new n p) = Some uid ->
  js_truthy_id uid = true ->
  let r := authenticate (State_new n p c l) in
  let read := [Emit (authentication_attempted n (sessionId s));
               SessionGet (sessionKeyName (SessionGuard_new n p));
               ProviderFindById uid] in
  count is_cookie_read (log (after r)) = count is_cookie_read l /\
  ctx (after r) = c /\
  match findById p uid with
  | Some pu =>
      result r = Return (getOriginal pu) /\
      user (guard (after r)) = getOriginal pu /\
      isAuthenticated (guard (after r)) = true /\
      viaRemember (guard (after r)) = false /\
      log (after r) =
        l ++ read ++
        [Emit (authentication_succeeded n (sessionId s) (getOriginal pu) None)]
  | None =>
      result r = Throw unauthorized /\
      user (guard (after r)) = None /\
      isAuthenticated (guard (after r)) = false /\
      log (after r) =
        l ++ read ++ [Emit (authentication_failed n unauthorized (sessionId s))]
  end.
Proof.
  intros Hs Hid Ht r read. subst r read.
  pose proof (js_if_truthy_id _ _ Hid Ht) as Hif.
  destruct (findById p uid) as [pu|] eqn:Hf.
  - rewrite (authenticate_via_id_found (State_new n p c l) s uid pu)
      by (reflexivity || assumption).
    cbn [result after fst snd guard ctx log State_new set_authenticated
         user isAuthenticated viaRemember prologue name SessionGuard_new app].
    rewrite count_app. repeat split. cbn. lia.
  - rewrite (authenticate_via_id_missing (State_new n p c l) s uid)
      by (reflexivity || assumption).
    cbn [result after fst snd guard ctx log State_new set_authenticationAttempted
         user isAuthenticated prologue name SessionGuard_new app].
    rewrite count_app. repeat split. cbn. lia.
Qed.

Lemma authenticate_via_session_id_witness :
  let st := Sample.fresh (Sample.provider None)
              (Sample.context (Some (Sample.session_of (IdNumber 7))) None) in
  result (authenticate st) = Return (Some Sample.foo) /\
  isAuthenticated (guard (after (authenticate st))) = true /\
  viaRemember (guard (after (authenticate st))) = false /\
  count is_cookie_read (log (after (authenticate st))) = 0.
Proof.
  pose proof (authenticate_via_session_id "web" (Sample.provider None)
                (Sample.context (Some (Sample.session_of (IdNumber 7))) None) []
                (Sample.session_of (IdNumber 7)) (IdNumber 7)
                eq_refl eq_refl eq_refl) as H.
  cbv zeta in H. destruct H as (Hread & _ & Hres & _ & Hauth & Hvia & _).
  repeat split; assumption.
Defined.

(** C6 fails as stated: the store holds the user id [0] under ["auth_web"]
    and [findById(0)] returns a user, yet [if (authUserId)] takes [0] for an
    absent id; with no remember cookie the call resolves with no user and the
    provider is never asked. *)
Lemma authenticate_session_id_zero :
  let p := Sample.provider_zero in
  let st := Sample.fresh p (Sample.context (Some (Sample.session_of (IdNumber 0))) None) in
  values (Sample.session_of (IdNumber 0)) !! sessionKeyName (guard st) = Some (IdNumber 0) /\
  findById p (IdNumber 0) = Some (Sample.provider_user (FactoryUser.createWithDefaults 0)) /\
  result (authenticate st) = Return None /\
  result (authenticate st) <> Return (Some (FactoryUser.createWithDefaults 0)) /\
  isAuthenticated (guard (after (authenticate st))) = false /\
  log (after (authenticate st)) =
    [Emit (authentication_attempted "web" "sid-1");
     SessionGet "auth_web"; RequestEncryptedCookie "remember_web"].
Proof.
  cbv zeta. repeat split; try reflexivity. vm_compute. congruence.
Qed.

(** C7. For every request with no session user-id entry and no remember
    cookie, a first call to [authenticate()] completes without throwing and
    without emitting a failure event: it resolves with no user, leaves [user]
    unset and [isAuthenticated] false, changes nothing in the context (no
    session write, no cookie write), and the only event it emits is
    [authentication_attempted]. *)
Theorem authenticate_without_credentials {User : Type} {truthy_user : JsTruthy User}
    (n : string) (p : @UserProvider User) (c : HttpContext)
    (l : list (@Effect User)) (s : Session) :
  session c = Some s ->
  values s !! sessionKeyName (SessionGuard_new n p) = None ->
  request_cookies c !! rememberMeKeyName (SessionGuard_new n p) = None ->
  let r := authenticate (State_new n p c l) in
  result r = Return None /\
  user (guard (after r)) = None /\
  isAuthenticated (guard (after r)) = false /\
  ctx (after r) = c /\
  log (after r) =
    l ++ [Emit (authentication_attempted n (sessionId s));
          SessionGet (sessionKeyName (SessionGuard_new n p));
          RequestEncryptedCookie (rememberMeKeyName (SessionGuard_new n p))] /\
  count is_failed (log (after r)) = count is_failed l.
Proof.
  intros Hs Hid Hck r. subst r.
  rewrite (authenticate_no_credentials (State_new n p c l) s); cbn [State_new guard ctx log];
    [ | reflexivity | exact Hs | rewrite Hid; reflexivity | rewrite Hck; reflexivity ].
  cbn [result after fst snd guard ctx log]. repeat split.
  rewrite count_app. cbn. lia.
Qed.

Lemma authenticate_without_credentials_witness :
  let st := Sample.fresh (Sample.provider None)
              (Sample.context (Some Sample.empty_session) None) in
  result (authenticate st) = Return None /\
  user (guard (after (authenticate st))) = None /\
  isAuthenticated (guard (after (authenticate st))) = false /\
  ctx (after (authenticate st)) = Sample.context (Some Sample.empty_session) None /\
  log (after (authenticate st)) =
    [Emit (authentication_attempted "web" "sid-1");
     SessionGet "auth_web"; RequestEncryptedCookie "remember_web"] /\
  count is_failed (log (after (authenticate st))) = 0.
Proof.
  exact (authenticate_without_credentials "web" (Sample.provider None)
           (Sample.context (Some Sample.empty_session) None) []
           Sample.empty_session eq_refl eq_refl eq_refl).
Defined.

(** C8, as the code has it. In every guard state reachable from a freshly
    constructed guard through any sequence of [authenticate()], [check()],
    [getUserOrFail()] and [authenticateAsClient()] calls: a user is held, and
    a fortiori passes the guard's test [this.user], only if
    [isAuthenticated] is true; if [isAuthenticated] is true the [user] field
    holds the original of a user the provider found; so the field is set
    (and passes the test) if and only if [isAuthenticated] is true whenever
    the originals of the provider are truthy. The guard records at most one
    successful authentication: at most one success event is emitted, and
    once [isAuthenticated] is true no later call changes the guard. *)
Theorem guard_invariant {User : Type} {truthy_user : JsTruthy User}
    (n : string) (p : @UserProvider User) (c : HttpContext)
    (cs : list (@Call User)) :
  let st := run_calls cs (State_new n p c []) in
  (is_Some (user (guard st)) -> isAuthenticated (guard st) = true) /\
  (js_truthy_user (user (guard st)) = true -> isAuthenticated (guard st) = true) /\
  (isAuthenticated (guard st) = true ->
   exists id pu, findById p id = Some pu /\ user (guard st) = getOriginal pu) /\
  ((forall id pu, findById p id = Some pu -> js_truthy_user (getOriginal pu) = true) ->
   (is_Some (user (guard st)) <-> isAuthenticated (guard st) = true) /\
   (js_truthy_user (user (guard st)) = true <-> isAuthenticated (guard st) = true)) /\
  count is_succeeded (log st) <= 1 /\
  forall more : list (@Call User),
    isAuthenticated (guard st) = true -> guard (run_calls more st) = guard st.
Proof.
  intros st.
  pose proof (run_calls_consistent cs _ (State_new_consistent n p c []))
    as (Hset & Hnone & Hfound).
  pose proof (run_calls_single_outcome cs _ (State_new_single_outcome n p c)) as [_ Hle].
  pose proof (run_calls_provider cs (State_new n p c [])) as Hp.
  fold st in Hset, Hnone, Hfound, Hle, Hp. cbn in Hp. rewrite Hp in Hfound.
  assert (Htest : js_truthy_user (user (guard st)) = true ->
                  isAuthenticated (guard st) = true).
  { intros Ht. apply Hset. destruct (user (guard st)); [eauto | discriminate]. }
  split; [exact Hset|]. split; [exact Htest|]. split; [exact Hfound|].
  split; [|split; [exact Hle|]].
  - intros Hobj.
    assert (Hback : isAuthenticated (guard st) = true ->
                    js_truthy_user (user (guard st)) = true).
    { intros Ha. destruct (Hfound Ha) as (id & pu & Hf & ->). eapply Hobj, Hf. }
    split; split; auto.
    intros Ha. specialize (Hback Ha).
    destruct (user (guard st)); [eauto | discriminate].
  - intros more Ha. apply run_calls_attempted.
    destruct (authenticationAttempted (guard st)); [reflexivity|].
    destruct (Hnone eq_refl) as [_ Hno]. congruence.
Qed.

Lemma guard_invariant_witness :
  let st := run_calls [call_check; call_authenticate; call_getUserOrFail]
              (Sample.fresh (Sample.provider None)
                 (Sample.context (Some (Sample.session_of (IdNumber 7))) None)) in
  (is_Some (user (guard st)) <-> isAuthenticated (guard st) = true) /\
  count is_succeeded (log st) <= 1 /\
  guard (run_calls [call_authenticate; call_check] st) = guard st.
Proof.
  pose proof (guard_invariant "web" (Sample.provider None)
                (Sample.context (Some (Sample.session_of (IdNumber 7))) None)
                [call_check; call_authenticate; call_getUserOrFail])
    as (_ & _ & _ & Hobj & Hle & Hstable).
  split; [|split; [exact Hle | apply Hstable; reflexivity]].
  apply Hobj. intros id pu Hf. cbn in Hf.
  destruct (Sample.id_eqb id (IdNumber 7)); [|discriminate].
  injection Hf as <-. reflexivity.
Defined.

(** C8 fails as stated. When the user the provider finds for the session id
    is the falsy value [0], [authenticate()] leaves [isAuthenticated] true
    while the guard's own test of [this.user] fails: [getUserOrFail()] throws
    Unauthorized. When the original of the user found is [undefined],
    [isAuthenticated] is true and the [user] field is not set at all. *)
Lemma authenticated_without_user :
  let falsy := after (authenticate
                        (Sample.fresh_numbers
                           (Sample.context (Some (Sample.session_of (IdNumber 5))) None))) in
  let unset := after (authenticate
                        (Sample.fresh_numbers
                           (Sample.context (Some (Sample.session_of (IdNumber 6))) None))) in
  isAuthenticated (guard falsy) = true /\
  user (guard falsy) = Some 0%Z /\
  js_truthy_user (user (guard falsy)) = false /\
  result (getUserOrFail falsy) = Throw unauthorized /\
  isAuthenticated (guard unset) = true /\
  user (guard unset) = None.
Proof.
  cbv zeta. repeat split; reflexivity.
Qed.

(** C9. For every request with no session user-id entry and no remember
    cookie, a first call to [check()] returns [true], although the guard is
    left with [isAuthenticated] false and no user; a second call to [check()]
    on the same guard returns [false], through the memoized path and
    [getUserOrFail()]. *)
Theorem check_without_credentials {User : Type} {truthy_user : JsTruthy User}
    (n : string) (p : @UserProvider User) (c : HttpContext)
    (l : list (@Effect User)) (s : Session) :
  session c = Some s ->
  values s !! sessionKeyName (SessionGuard_new n p) = None ->
  request_cookies c !! rememberMeKeyName (SessionGuard_new n p) = None ->
  let first := check (State_new n p c l) in
  let second := check (after first) in
  result first = Return true /\
  isAuthenticated (guard (after first)) = false /\
  user (guard (after first)) = None /\
  result second = Return false /\
  after second = after first.
Proof.
  intros Hs Hid Hck first second. subst second first.
  assert (Hrun : authenticate (State_new n p c l) =
                 (Return None,
                  {| guard := set_authenticationAttempted true (SessionGuard_new n p);
                     ctx := c;
                     log := l ++ prologue (State_new n p c l) s ++
                            [RequestEncryptedCookie
                               (rememberMeKeyName (SessionGuard_new n p))] |})).
  { apply authenticate_no_credentials; cbn [State_new guard ctx log];
      [ reflexivity | exact Hs | rewrite Hid; reflexivity | rewrite Hck; reflexivity ]. }
  rewrite !check_unfold, Hrun. cbn [result after fst snd guard].
  rewrite authenticate_memoized by reflexivity.
  cbn [result after fst snd guard]. repeat split.
Qed.

Lemma check_without_credentials_witness :
  let st := Sample.fresh (Sample.provider None)
              (Sample.context (Some Sample.empty_session) None) in
  result (check st) = Return true /\
  isAuthenticated (guard (after (check st))) = false /\
  user (guard (after (check st))) = None /\
  result (check (after (check st))) = Return false /\
  after (check (after (check st))) = after (check st).
Proof.
  exact (check_without_credentials "web" (Sample.provider None)
           (Sample.context (Some Sample.empty_session) None) []
           Sample.empty_session eq_refl eq_refl eq_refl).
Defined.

(** C10. If the session capability is absent from the context, a first call
    to [authenticate()] sets [authenticationAttempted] and then throws the
    configuration error, emitting no event; after that, whatever methods are
    called in between, every [authenticate()] on the same guard throws
    Unauthorized and every [check()] returns [false]: the configuration error
    is not reported again. *)
Theorem authenticate_without_session {User : Type} {truthy_user : JsTruthy User}
    (n : string) (p : @UserProvider User) (c : HttpContext)
    (l : list (@Effect User)) :
  session c = None ->
  let first := authenticate (State_new n p c l) in
  result first = Throw config_error /\
  authenticationAttempted (guard (after first)) = true /\
  log (after first) = l /\
  forall cs : list (@Call User),
    let st := run_calls cs (after first) in
    result (authenticate st) = Throw unauthorized /\
    result (check st) = Return false.
Proof.
  intros Hs first. subst first.
  rewrite (authenticate_no_session (State_new n p c l)) by (reflexivity || exact Hs).
  cbn [result after fst snd guard log State_new]. repeat split.
  - rewrite authenticate_memoized.
    + rewrite run_calls_attempted by reflexivity. reflexivity.
    + rewrite run_calls_attempted by reflexivity. reflexivity.
  - rewrite check_unfold, authenticate_memoized.
    + rewrite run_calls_attempted by reflexivity. reflexivity.
    + rewrite run_calls_attempted by reflexivity. reflexivity.
Qed.

Lemma authenticate_without_session_witness :
  let st := Sample.fresh (Sample.provider None) (Sample.context None None) in
  result (authenticate st) = Throw config_error /\
  authenticationAttempted (guard (after (authenticate st))) = true /\
  log (after (authenticate st)) = [] /\
  forall cs : list (@Call FactoryUser.t),
    result (authenticate (run_calls cs (after (authenticate st)))) = Throw unauthorized /\
    result (check (run_calls cs (after (authenticate st)))) = Return false.
Proof.
  exact (authenticate_without_session "web" (Sample.provider None)
           (Sample.context None None) [] eq_refl).
Defined.

(** * Further properties of the guard *)

Section Reachable.

Context {User : Type} {truthy_user : JsTruthy User}.

Implicit Types (st : @State User) (g : @SessionGuard User) (p : @UserProvider User).
Implicit Types (c : HttpContext) (l : list (@Effect User)) (s : Session).

Lemma State_new_settled n p c l : settled n p c (State_new n p c l).
Proof. unfold settled. cbn. repeat split; intros; congruence. Qed.

Lemma authenticate_settled n p c st :
  settled n p c st -> settled n p c (after (authenticate st)).
Proof.
  intros (Hn & Hp & Hlo & Hnew & Hvia & Hatt & Hctx & Hrc & Hsv & Hwc). unfold settled.
  destruct (authenticationAttempted (guard st)) eqn:Hfirst.
  - rewrite (authenticate_memoized st Hfirst). cbn [after snd].
    rewrite Hfirst. repeat split; auto; try congruence; apply Hvia; assumption.
  - specialize (Hnew eq_refl).
    assert (Hc : ctx st = c) by (apply Hctx; rewrite Hnew; reflexivity).
    assert (Hv : viaRemember (guard st) = false) by (rewrite Hnew; reflexivity).
    authenticate_paths st; try discriminate;
      rewrite ?Hv; repeat split; auto; try congruence; intros; try congruence.
    + unfold session_value. cbn [session Session_regenerate Session_put values].
      rewrite Hnew, lookup_insert_ne by congruence.
      rewrite <- Hc, Hs. reflexivity.
    + cbn [response_cookies]. rewrite Hnew, lookup_insert_ne by congruence.
      rewrite Hc. reflexivity.
    + unfold session_value. cbn [session Session_regenerate Session_put values].
      rewrite Hnew, lookup_insert_ne by congruence.
      rewrite <- Hc, Hs. reflexivity.
Qed.

Lemma run_call_settled n p c call st :
  settled n p c st -> settled n p c (run_call call st).
Proof.
  intros H. destruct call; unfold run_call.
  - apply authenticate_settled, H.
  - rewrite check_unfold. apply authenticate_settled, H.
  - rewrite getUserOrFail_unfold. exact H.
  - rewrite authenticateAsClient_unfold. exact H.
Qed.

Lemma run_calls_settled n p c cs st :
  settled n p c st -> settled n p c (run_calls cs st).
Proof.
  revert st. induction cs as [|call cs IH]; intros st H; [exact H|].
  apply (IH (run_call call st)), run_call_settled, H.
Qed.

Lemma State_new_events_in_order n p c : events_in_order (State_new n p c []).
Proof.
  unfold events_in_order. cbn. repeat split; intros; try lia; congruence.
Qed.

Lemma authenticate_events_in_order st :
  events_in_order st -> events_in_order (after (authenticate st)).
Proof.
  intros (Hzero & Hone & Hle & Hiff). unfold events_in_order.
  destruct (authenticationAttempted (guard st)) eqn:Hfirst.
  - rewrite (authenticate_memoized st Hfirst). cbn [after snd].
    rewrite Hfirst. repeat split; try apply Hiff; auto; congruence.
  - destruct (Hzero eq_refl) as [Hatt Hauth].
    assert (Hs0 : count is_succeeded (log st) = 0) by lia.
    assert (Hf0 : count is_failed (log st) = 0) by lia.
    authenticate_paths st; try discriminate;
      unfold remember_effects, prologue;
      rewrite ?count_app, ?Hatt, ?Hs0, ?Hf0, ?Hauth; cbn;
      repeat split; intros; try lia; try congruence.
Qed.

Lemma run_call_events_in_order call st :
  events_in_order st -> events_in_order (run_call call st).
Proof.
  intros H. destruct call; unfold run_call.
  - apply authenticate_events_in_order, H.
  - rewrite check_unfold. apply authenticate_events_in_order, H.
  - rewrite getUserOrFail_unfold. exact H.
  - rewrite authenticateAsClient_unfold. destruct H as (Hzero & Hone & Hle & Hiff).
    unfold events_in_order. cbn [after snd guard log]. rewrite !count_app. cbn.
    rewrite !Nat.add_0_r. repeat split; try apply Hiff; auto; apply Hzero; assumption.
Qed.

Lemma run_calls_events_in_order cs st :
  events_in_order st -> events_in_order (run_calls cs st).
Proof.
  revert st. induction cs as [|call cs IH]; intros st H; [exact H|].
  apply (IH (run_call call st)), run_call_events_in_order, H.
Qed.

(** Reading a log in two parts. *)
Lemma phase_after_app ph l1 l2 :
  phase_after ph (l1 ++ l2) =
    match phase_after ph l1 with
    | Some ph' => phase_after ph' l2
    | None => None
    end.
Proof.
  revert ph. induction l1 as [|e l1 IH]; intros ph; [reflexivity|].
  cbn. destruct (next_phase ph e); [apply IH | reflexivity].
Qed.

Lemma authenticate_phased st :
  (exists ph, phase_after Unattempted (log st) = Some ph /\
              (authenticationAttempted (guard st) = false -> ph = Unattempted)) ->
  exists ph, phase_after Unattempted (log (after (authenticate st))) = Some ph /\
             (authenticationAttempted (guard (after (authenticate st))) = false ->
              ph = Unattempted).
Proof.
  intros (ph & Hph & Hidle).
  destruct (authenticationAttempted (guard st)) eqn:Hfirst.
  - rewrite (authenticate_memoized st Hfirst). cbn [after snd]. rewrite Hfirst.
    exists ph. split; [exact Hph | discriminate].
  - rewrite (Hidle eq_refl) in Hph.
    authenticate_paths st; try discriminate;
      unfold remember_effects, prologue;
      rewrite ?phase_after_app, Hph; cbn;
      eexists; (split; [reflexivity | discriminate]).
Qed.

Lemma run_call_phased call st :
  (exists ph, phase_after Unattempted (log st) = Some ph /\
              (authenticationAttempted (guard st) = false -> ph = Unattempted)) ->
  exists ph, phase_after Unattempted (log (run_call call st)) = Some ph /\
             (authenticationAttempted (guard (run_call call st)) = false ->
              ph = Unattempted).
Proof.
  intros H. destruct call; unfold run_call.
  - apply authenticate_phased, H.
  - rewrite check_unfold. apply authenticate_phased, H.
  - rewrite getUserOrFail_unfold. exact H.
  - rewrite authenticateAsClient_unfold. destruct H as (ph & Hph & Hidle).
    exists ph. cbn [after snd guard log]. rewrite phase_after_app, Hph.
    split; [reflexivity | exact Hidle].
Qed.

Lemma run_calls_phased cs st :
  (exists ph, phase_after Unattempted (log st) = Some ph /\
              (authenticationAttempted (guard st) = false -> ph = Unattempted)) ->
  exists ph, phase_after Unattempted (log (run_calls cs st)) = Some ph /\
             (authenticationAttempted (guard (run_calls cs st)) = false ->
              ph = Unattempted).
Proof.
  revert st. induction cs as [|call cs IH]; intros st H; [exact H|].
  apply (IH (run_call call st)), run_call_phased, H.
Qed.

End Reachable.

(** X1. The session key and the remember cookie key are built from the
    guard's name without collision: two guards share a session key, or a
    cookie key, exactly when they have the same name, and no session key is
    the cookie key of any guard. *)
Theorem key_names_separate {User : Type} (g1 g2 : @SessionGuard User) :
  (sessionKeyName g1 = sessionKeyName g2 <-> name g1 = name g2) /\
  (rememberMeKeyName g1 = rememberMeKeyName g2 <-> name g1 = name g2) /\
  sessionKeyName g1 <> rememberMeKeyName g2.
Proof.
  unfold sessionKeyName, rememberMeKeyName.
  repeat split; intros H; cbv [String.append] in *; congruence.
Qed.

Lemma key_names_separate_witness :
  name (guard (Sample.fresh (Sample.provider None) (Sample.context None None)))
  = name (guard (Sample.fresh Sample.provider_zero (Sample.context None None))).
Proof.
  apply (proj1 (proj1 (key_names_separate
                         (guard (Sample.fresh (Sample.provider None)
                                   (Sample.context None None)))
                         (guard (Sample.fresh Sample.provider_zero
                                   (Sample.context None None)))))).
  reflexivity.
Defined.

(** X2. The payload of [authenticateAsClient(user)] logs the user in: the
    call itself only asks the provider and touches neither guard nor
    context (it needs no session); and when the payload is laid over a
    session, the id is truthy and [findById] knows it, a fresh guard of the
    same name authenticates the request from the session, without reading
    the remember cookie and without writing to the context. *)
Theorem client_session_authenticates {User : Type} {truthy_user : JsTruthy User}
    (n : string) (p : @UserProvider User) (u : option User) (st0 : @State User)
    (sid : string) (vals : gmap string UserId) (cookies : gmap string string)
    (l : list (@Effect User)) (pu : @ProviderUser User) :
  name (guard st0) = n ->
  userProvider (guard st0) = p ->
  js_truthy_id (getId (createUserForGuard p u)) = true ->
  findById p (getId (createUserForGuard p u)) = Some pu ->
  exists payload,
    authenticateAsClient u st0 =
      (Return payload,
       {| guard := guard st0; ctx := ctx st0;
          log := log st0 ++ [ProviderCreateUserForGuard u] |}) /\
    let c := client_context payload sid vals cookies in
    let r := authenticate (State_new n p c l) in
    result r = Return (getOriginal pu) /\
    isAuthenticated (guard (after r)) = true /\
    viaRemember (guard (after r)) = false /\
    ctx (after r) = c /\
    count is_cookie_read (log (after r)) = count is_cookie_read l.
Proof.
  intros Hn Hp Ht Hf. subst n p.
  eexists. split; [apply authenticateAsClient_unfold|].
  intros c r. subst c r.
  set (n := name (guard st0)). set (p := userProvider (guard st0)) in *.
  set (uid := getId (createUserForGuard p u)) in *.
  set (c := client_context _ _ _ _).
  assert (Hid : js_if js_truthy_id
                  (values {| sessionId := sid;
                             values := {[ sessionKeyName (guard st0) := uid ]} ∪ vals;
                             regenerations := 0 |}
                     !! sessionKeyName (guard (State_new n p c l))) = Some uid).
  { apply js_if_truthy_id; [|exact Ht]. cbn [values State_new guard].
    apply lookup_union_Some_l.
    change (sessionKeyName (SessionGuard_new n p)) with (sessionKeyName (guard st0)).
    apply lookup_singleton_eq. }
  rewrite (authenticate_via_id_found (State_new n p c l) _ uid pu eq_refl eq_refl Hid Hf).
  cbn [result after fst snd guard ctx log State_new set_authenticated
       isAuthenticated viaRemember prologue app].
  rewrite count_app. repeat split. cbn. lia.
Qed.

Lemma client_session_authenticates_witness :
  let p := Sample.provider None in
  exists payload,
    result (authenticateAsClient (Some Sample.foo)
              (Sample.fresh p (Sample.context None None))) = Return payload /\
    result (authenticate
              (State_new "web" p (client_context payload "sid-9" ∅ ∅) []))
      = Return (Some Sample.foo).
Proof.
  destruct (client_session_authenticates "web" (Sample.provider None) (Some Sample.foo)
              (Sample.fresh (Sample.provider None) (Sample.context None None))
              "sid-9" ∅ ∅ [] (Sample.provider_user Sample.foo)
              eq_refl eq_refl eq_refl eq_refl) as (payload & Hrun & Hauth).
  exists payload. split.
  - rewrite Hrun. reflexivity.
  - apply Hauth.
Defined.

(** X3. The payload of [authenticateAsClient] is worth nothing to a guard of
    another name: on a session that holds only that payload, and with no
    remember cookie for it, a fresh guard named otherwise resolves with no
    user and never asks the provider. *)
Theorem client_session_is_per_guard {User : Type} {truthy_user : JsTruthy User}
    (n1 n2 : string) (p : @UserProvider User) (u : option User) (st0 : @State User)
    (sid : string) (cookies : gmap string string) (l : list (@Effect User))
    (payload : AuthClientResponse) :
  name (guard st0) = n1 ->
  n1 <> n2 ->
  cookies !! rememberMeKeyName (SessionGuard_new n2 p) = None ->
  result (authenticateAsClient u st0) = Return payload ->
  let c := client_context payload sid ∅ cookies in
  authenticate (State_new n2 p c l) =
    (Return None,
     {| guard := set_authenticationAttempted true (SessionGuard_new n2 p);
        ctx := c;
        log := l ++ [Emit (authentication_attempted n2 sid);
                     SessionGet (sessionKeyName (SessionGuard_new n2 p));
                     RequestEncryptedCookie (rememberMeKeyName (SessionGuard_new n2 p))] |}).
Proof.
  intros Hn Hne Hck Hrun c. subst c.
  apply (authenticate_no_credentials
           (State_new n2 p (client_context payload sid ∅ cookies) l)
           {| sessionId := sid; values := client_session payload ∪ ∅;
              regenerations := 0 |}).
  - reflexivity.
  - reflexivity.
  - rewrite authenticateAsClient_unfold in Hrun. cbn [result fst] in Hrun.
    injection Hrun as <-.
    cbn [values State_new guard client_session].
    rewrite lookup_union_r, lookup_empty; [reflexivity|].
    apply lookup_singleton_ne. unfold sessionKeyName. cbn [SessionGuard_new name].
    rewrite Hn. cbv [String.append]. congruence.
  - cbn [State_new guard ctx client_context request_cookies]. rewrite Hck. reflexivity.
Qed.

Lemma client_session_is_per_guard_witness :
  let p := Sample.provider None in
  let payload := {| client_session := {[ "auth_web"%string := IdNumber 7 ]} |} in
  result (authenticateAsClient (Some Sample.foo)
            (Sample.fresh p (Sample.context None None))) = Return payload /\
  result (authenticate
            (State_new "api" p (client_context payload "sid-9" ∅ ∅) []))
    = Return None.
Proof.
  cbv zeta. split; [reflexivity|].
  rewrite (client_session_is_per_guard "web" "api" (Sample.provider None) (Some Sample.foo)
             (Sample.fresh (Sample.provider None) (Sample.context None None))
             "sid-9" ∅ [] {| client_session := {[ "auth_web"%string := IdNumber 7 ]} |}
             eq_refl ltac:(discriminate) eq_refl eq_refl).
  reflexivity.
Defined.

(** X4. A request authenticated from the remember cookie leaves a session
    that authenticates the requests that follow: whether or not the recycled
    token carried a value, when the id the provider gives for the user is
    truthy and [findById] knows it, a fresh guard on a later request of that
    session authenticates from the session id, with [viaRemember] false,
    without reading any cookie and without writing to the context. *)
Theorem remembered_session_authenticates {User : Type} {truthy_user : JsTruthy User}
    (n : string) (p : @UserProvider User) (c : HttpContext)
    (l : list (@Effect User)) (s : Session) (ck : string)
    (tok : RememberMeToken) (pu pu' : @ProviderUser User)
    (cookies : gmap string string) (l' : list (@Effect User)) :
  session c = Some s ->
  values s !! sessionKeyName (SessionGuard_new n p) = None ->
  request_cookies c !! rememberMeKeyName (SessionGuard_new n p) = Some ck ->
  ck <> ""%string ->
  verifyRememberToken p ck = Some tok ->
  findById p (tokenableId tok) = Some pu ->
  js_truthy_id (getId pu) = true ->
  findById p (getId pu) = Some pu' ->
  let first := authenticate (State_new n p c l) in
  let c' := next_request (ctx (after first)) cookies in
  let r := authenticate (State_new n p c' l') in
  viaRemember (guard (after first)) = true /\
  session_value c' (sessionKeyName (SessionGuard_new n p)) = Some (getId pu) /\
  result r = Return (getOriginal pu') /\
  isAuthenticated (guard (after r)) = true /\
  viaRemember (guard (after r)) = false /\
  attemptedViaRemember (guard (after r)) = false /\
  ctx (after r) = c' /\
  count is_cookie_read (log (after r)) = count is_cookie_read l'.
Proof.
  intros Hs Hid Hck Hne Hv Hf Ht Hf' first c' r. subst r c' first.
  pose proof (js_if_nonempty _ _ Hck Hne) as Hif.
  assert (Hno : js_if js_truthy_id
                  (values s !! sessionKeyName (guard (State_new n p c l))) = None)
    by (cbn [State_new guard]; rewrite Hid; reflexivity).
  set (s' := Session_regenerate
               (Session_put (sessionKeyName (SessionGuard_new n p)) (getId pu) s)).
  assert (Hctx : session (ctx (after (authenticate (State_new n p c l)))) = Some s'
                 /\ viaRemember (guard (after (authenticate (State_new n p c l)))) = true).
  { destruct (value (recycleRememberToken p (getOriginal pu) (identifier tok)))
      as [v|] eqn:Hr.
    - rewrite (authenticate_via_cookie (State_new n p c l) s ck tok pu v)
        by (reflexivity || assumption). split; reflexivity.
    - rewrite (authenticate_via_cookie_no_value (State_new n p c l) s ck tok pu)
        by (reflexivity || assumption). split; reflexivity. }
  destruct Hctx as [Hsess Hvia].
  assert (Hid' : js_if js_truthy_id
                   (values s' !! sessionKeyName
                      (guard (State_new n p
                                (next_request
                                   (ctx (after (authenticate (State_new n p c l))))
                                   cookies) l'))) = Some (getId pu)).
  { apply js_if_truthy_id; [|exact Ht]. apply lookup_insert_eq. }
  rewrite (authenticate_via_id_found
             (State_new n p
                (next_request (ctx (after (authenticate (State_new n p c l)))) cookies)
                l')
             s' (getId pu) pu' eq_refl Hsess Hid' Hf').
  cbn [result after fst snd guard ctx log State_new set_authenticated
       set_authenticationAttempted SessionGuard_new
       isAuthenticated viaRemember attemptedViaRemember prologue app].
  rewrite count_app. unfold session_value. cbn [next_request session].
  rewrite Hsess. repeat split; try assumption.
  - apply lookup_insert_eq.
  - cbn. lia.
Qed.

Lemma remembered_session_authenticates_witness :
  let p := Sample.provider None in
  let first := authenticate
                 (Sample.fresh p (Sample.context (Some Sample.empty_session)
                                    (Some "series.old"%string))) in
  let r := authenticate (State_new "web" p (next_request (ctx (after first)) ∅) []) in
  result r = Return (Some Sample.foo) /\
  viaRemember (guard (after r)) = false.
Proof.
  pose proof (remembered_session_authenticates "web" (Sample.provider None)
                (Sample.context (Some Sample.empty_session) (Some "series.old"%string))
                [] Sample.empty_session "series.old" Sample.old_token
                (Sample.provider_user Sample.foo) (Sample.provider_user Sample.foo)
                ∅ [] eq_refl eq_refl eq_refl ltac:(discriminate)
                eq_refl eq_refl eq_refl eq_refl) as H.
  cbv zeta in H. destruct H as (_ & _ & Hres & _ & Hvia & _).
  split; assumption.
Defined.





(** X7. The guard writes to the context only when the remember cookie
    authenticates the request: after any sequence of calls, if
    [viaRemember] is false the context is the one the guard was constructed
    on; in every case the request cookies are untouched, and so are the
    session values under every key but the guard's session key and the
    response cookies under every key but the guard's remember key. *)
Theorem context_written_only_via_remember {User : Type} {truthy_user : JsTruthy User}
    (n : string) (p : @UserProvider User) (c : HttpContext)
    (l : list (@Effect User)) (cs : list (@Call User)) :
  let st := run_calls cs (State_new n p c l) in
  (viaRemember (guard st) = false -> ctx st = c) /\
  request_cookies (ctx st) = request_cookies c /\
  (forall k, k <> sessionKeyName (SessionGuard_new n p) ->
             session_value (ctx st) k = session_value c k) /\
  (forall k, k <> rememberMeKeyName (SessionGuard_new n p) ->
             response_cookies (ctx st) !! k = response_cookies c !! k).
Proof.
  intros st.
  destruct (run_calls_settled n p c cs _ (State_new_settled n p c l))
    as (_ & _ & _ & _ & _ & _ & Hctx & Hrc & Hsv & Hwc).
  repeat split; assumption.
Qed.

Lemma context_written_only_via_remember_witness :
  let c := Sample.context (Some (Sample.session_of (IdNumber 7))) (Some "series.old"%string) in
  let st := run_calls [call_check; call_authenticate] (Sample.fresh (Sample.provider None) c) in
  ctx st = c.
Proof.
  pose proof (context_written_only_via_remember "web" (Sample.provider None)
                (Sample.context (Some (Sample.session_of (IdNumber 7)))
                   (Some "series.old"%string)) []
                [call_check; call_authenticate]) as (Hctx & _).
  apply Hctx. reflexivity.
Defined.

(** X8. Over the whole life of a guard that starts with an empty log, the
    events come in order: read from its first effect on, the log announces
    the attempt once, before any outcome, and at most one outcome (succeeded
    or failed) after it; as long as no attempt was made the log holds no
    event. In numbers: at most one [authentication_attempted] event,
    succeeded and failed events together never outnumber it, and
    [isAuthenticated] is true exactly when one succeeded event was emitted. *)
Theorem events_ordered {User : Type} {truthy_user : JsTruthy User}
    (n : string) (p : @UserProvider User) (c : HttpContext)
    (cs : list (@Call User)) :
  let st := run_calls cs (State_new n p c []) in
  (exists ph, phase_after Unattempted (log st) = Some ph /\
              (authenticationAttempted (guard st) = false -> ph = Unattempted)) /\
  count is_attempted (log st) <= 1 /\
  count is_succeeded (log st) + count is_failed (log st) <= count is_attempted (log st) /\
  (isAuthenticated (guard st) = true <-> count is_succeeded (log st) = 1).
Proof.
  intros st.
  destruct (run_calls_events_in_order cs _ (State_new_events_in_order n p c))
    as (_ & Hone & Hle & Hiff).
  split; [|repeat split; try assumption; apply Hiff].
  apply run_calls_phased. exists Unattempted. split; reflexivity.
Qed.

(** X9. As long as the provider and the session store answer every call (in
    this development they always do; an error they would throw is passed on
    by [authenticate()] untouched), [authenticate()] throws only three
    errors: the Unauthorized error with the fixed message and the driver
    name ["session"], which leaves the context and the cached user as they
    were; the configuration error, on a first call without session only; and
    the [TypeError] of a recycled token without value, which leaves the guard
    authenticated via the remember cookie. *)
Theorem authenticate_errors {User : Type} {truthy_user : JsTruthy User}
    (st : @State User) (e : Exception) :
  result (authenticate st) = Throw e ->
  (e = E_UNAUTHORIZED_ACCESS "Invalid or expired user session" "session" /\
   ctx (after (authenticate st)) = ctx st /\
   user (guard (after (authenticate st))) = user (guard st)) \/
  (e = config_error /\
   authenticationAttempted (guard st) = false /\ session (ctx st) = None /\
   log (after (authenticate st)) = log st) \/
  ((exists m, e = TypeError m) /\
   authenticationAttempted (guard st) = false /\
   viaRemember (guard (after (authenticate st))) = true /\
   isAuthenticated (guard (after (authenticate st))) = true).
Proof.
  authenticate_paths st; intros He; try discriminate He.
  - unfold cached_user in He.
    destruct (user (guard st)) as [u|]; [destruct (js_truthy u)|];
      try discriminate He; injection He as <-; left; repeat split.
  - injection He as <-. left. repeat split.
  - injection He as <-. right. right. repeat split. eexists. reflexivity.
  - injection He as <-. left. repeat split.
  - injection He as <-. left. repeat split.
  - injection He as <-. right. left. repeat split.
Qed.

Lemma authenticate_errors_witness :
  let st := Sample.fresh (Sample.provider None)
              (Sample.context (Some (Sample.session_of (IdNumber 8))) None) in
  result (authenticate st) = Throw unauthorized /\
  ctx (after (authenticate st)) = ctx st.
Proof.
  cbv zeta. split; [reflexivity|].
  destruct (authenticate_errors
              (Sample.fresh (Sample.provider None)
                 (Sample.context (Some (Sample.session_of (IdNumber 8))) None))
              unauthorized eq_refl)
    as [(_ & Hctx & _) | [(He & _) | ((m & He) & _)]];
    [exact Hctx | discriminate He | discriminate He].
Defined.

(** X10. A [false] from [check()] can be relied on: in any state reachable
    from a fresh guard, if [check()] returns [false] the guard holds no
    truthy user, [getUserOrFail()] and [authenticate()] throw Unauthorized,
    and every later [check()], whatever is called in between, returns
    [false] again. When the originals of the provider are truthy, the guard
    then holds no user at all and [isAuthenticated] is false. *)
Theorem check_false_is_final {User : Type} {truthy_user : JsTruthy User}
    (n : string) (p : @UserProvider User) (c : HttpContext)
    (l : list (@Effect User)) (cs more : list (@Call User)) :
  let st := run_calls cs (State_new n p c l) in
  result (check st) = Return false ->
  js_truthy_user (user (guard (after (check st)))) = false /\
  result (getUserOrFail (after (check st))) = Throw unauthorized /\
  result (authenticate (after (check st))) = Throw unauthorized /\
  result (check (run_calls more (after (check st)))) = Return false /\
  ((forall id pu, findById p id = Some pu -> js_truthy_user (getOriginal pu) = true) ->
   user (guard (after (check st))) = None /\
   isAuthenticated (guard (after (check st))) = false).
Proof.
  intros st Hfalse.
  pose proof (run_calls_consistent cs _ (State_new_consistent n p c l)) as Hst.
  pose proof (run_calls_provider cs (State_new n p c l)) as Hp.
  fold st in Hst, Hp. cbn in Hp.
  pose proof (authenticate_consistent st Hst) as (Hset & _ & Hfound).
  pose proof (run_call_provider call_authenticate st) as Hp'.
  cbn [run_call] in Hp'. rewrite Hp in Hp'. rewrite Hp' in Hfound.
  pose proof (authenticate_sets_attempted st) as Hatt.
  destruct Hst as (_ & Hnone & _).
  rewrite check_unfold in *. cbn [result after fst snd] in *.
  assert (Hu : js_truthy_user (user (guard (after (authenticate st)))) = false).
  { revert Hfalse. clear Hset Hfound Hatt Hp'.
    authenticate_paths st; intros Hfalse; try discriminate Hfalse;
      try (destruct (Hnone eq_refl) as [-> _]; reflexivity).
    unfold cached_user in Hfalse.
    destruct (user (guard st)) as [u|]; cbn; [|reflexivity].
    destruct (js_truthy u); [discriminate Hfalse | reflexivity]. }
  assert (Hcached : cached_user (guard (after (authenticate st))) = Throw unauthorized).
  { unfold cached_user. unfold js_truthy_user in Hu.
    destruct (user (guard (after (authenticate st)))) as [u|]; [|reflexivity].
    rewrite Hu. reflexivity. }
  split; [exact Hu|]. split; [|split; [|split]].
  - rewrite getUserOrFail_unfold. unfold js_truthy_user in Hu.
    destruct (user (guard (after (authenticate st)))) as [u|]; [|reflexivity].
    rewrite Hu. reflexivity.
  - rewrite authenticate_again, Hcached. reflexivity.
  - rewrite check_unfold, authenticate_memoized;
      rewrite run_calls_attempted by exact Hatt; [|exact Hatt].
    rewrite Hcached. reflexivity.
  - intros Hobj.
    assert (Hno : isAuthenticated (guard (after (authenticate st))) = false).
    { destruct (isAuthenticated (guard (after (authenticate st)))); [|reflexivity].
      destruct (Hfound eq_refl) as (id & pu & Hf & Heq).
      rewrite Heq, (Hobj id pu Hf) in Hu. discriminate. }
    split; [|exact Hno].
    destruct (user (guard (after (authenticate st)))) as [u|] eqn:Huser; [|reflexivity].
    rewrite Hset in Hno by eauto. discriminate.
Qed.

Lemma check_false_is_final_witness :
  let st := Sample.fresh (Sample.provider None)
              (Sample.context (Some (Sample.session_of (IdNumber 8))) None) in
  result (check st) = Return false /\
  result (check (run_calls [call_authenticate; call_getUserOrFail] (after (check st))))
    = Return false.
Proof.
  cbv zeta. split; [reflexivity|].
  apply (check_false_is_final "web" (Sample.provider None)
           (Sample.context (Some (Sample.session_of (IdNumber 8))) None) [] []
           [call_authenticate; call_getUserOrFail] eq_refl).
Defined.

Lemma events_ordered_witness :
  let st := run_calls [call_check; call_authenticate; call_check]
              (Sample.fresh (Sample.provider None)
                 (Sample.context (Some (Sample.session_of (IdNumber 7))) None)) in
  isAuthenticated (guard st) = true /\ count is_succeeded (log st) = 1.
Proof.
  pose proof (events_ordered "web" (Sample.provider None)
                (Sample.context (Some (Sample.session_of (IdNumber 7))) None)
                [call_check; call_authenticate; call_check]) as (_ & _ & _ & Hiff).
  split; [reflexivity|]. apply Hiff. reflexivity.
Defined.

(** * Properties of [Auth.use] *)

Section MappingsCache.

Context {Ctx Instance : Type}.

Implicit Types (a : @AuthClass.Auth Ctx Instance) (m : string).

Lemma asked_app m (l1 l2 : list AuthClass.AuthEffect) :
  AuthClass.asked m (l1 ++ l2) = AuthClass.asked m l1 + AuthClass.asked m l2.
Proof. unfold AuthClass.asked. rewrite List.filter_app. apply length_app. Qed.

Lemma traced_app m (l1 l2 : list AuthClass.AuthEffect) :
  AuthClass.traced m (l1 ++ l2) = AuthClass.traced m l1 + AuthClass.traced m l2.
Proof. unfold AuthClass.traced. rewrite List.filter_app. apply length_app. Qed.

(** A hit: nothing happens, the cached instance is returned. *)
Lemma use_hit a m i :
  AuthClass.mappingsCache a !! m = Some i ->
  AuthClass.use m a = (Return (Some i), a).
Proof. intros H. unfold AuthClass.use. rewrite H. reflexivity. Qed.

(** An entry of the cache survives every later [use]. *)
Lemma use_keeps a m m' i :
  AuthClass.mappingsCache a !! m = Some i ->
  AuthClass.mappingsCache (snd (AuthClass.use m' a)) !! m = Some i.
Proof.
  intros H. unfold AuthClass.use.
  destruct (AuthClass.mappingsCache a !! m') as [j|] eqn:Hc; [exact H|].
  destruct (AuthClass.makeMapping _ _ _ _) as [j|e]; cbn; [|exact H].
  rewrite lookup_insert_ne; [exact H | congruence].
Qed.

Lemma uses_keeps ms a m i :
  AuthClass.mappingsCache a !! m = Some i ->
  AuthClass.mappingsCache (AuthClass.uses ms a) !! m = Some i.
Proof.
  revert a. induction ms as [|m' ms IH]; intros a H; [exact H|].
  apply (IH (snd (AuthClass.use m' a))), use_keeps, H.
Qed.

(** What [use] returns is in the cache afterwards. *)
Lemma use_returns_cached a m r :
  fst (AuthClass.use m a) = Return r ->
  r = AuthClass.mappingsCache (snd (AuthClass.use m a)) !! m /\ is_Some r.
Proof.
  unfold AuthClass.use.
  destruct (AuthClass.mappingsCache a !! m) as [j|] eqn:Hc.
  - cbn. intros [= <-]. rewrite Hc. eauto.
  - destruct (AuthClass.makeMapping _ _ _ _) as [j|e]; cbn; [|discriminate].
    intros [= <-]. rewrite lookup_insert_eq. eauto.
Qed.

End MappingsCache.

(** X11. [use] keeps one instance per mapping: once [use(mapping)] has
    returned an instance, every later [use(mapping)], whatever other mappings
    are asked for in between, returns that same instance without asking the
    manager and without logging. *)
Theorem use_memoized {Ctx Instance : Type}
    (a : @AuthClass.Auth Ctx Instance) (m : string) (i : Instance)
    (ms : list string) :
  fst (AuthClass.use m a) = Return (Some i) ->
  let a' := AuthClass.uses ms (snd (AuthClass.use m a)) in
  AuthClass.use m a' = (Return (Some i), a').
Proof.
  intros H a'. apply use_hit. apply uses_keeps.
  destruct (use_returns_cached a m _ H) as [Heq _]. congruence.
Qed.

Lemma use_memoized_witness :
  let a := AuthClass.Auth_new SampleAuth.manager tt in
  let a' := AuthClass.uses ["api"; "basic"; "web"]%string (snd (AuthClass.use "web" a)) in
  fst (AuthClass.use "web" a) = Return (Some 1) /\
  AuthClass.use "web" a' = (Return (Some 1), a').
Proof.
  cbv zeta. split; [reflexivity|].
  exact (use_memoized (AuthClass.Auth_new SampleAuth.manager tt) "web" 1
           ["api"; "basic"; "web"]%string eq_refl).
Defined.



Section AskedOnce.

Context {Ctx Instance : Type}.

Implicit Types (a : @AuthClass.Auth Ctx Instance) (m : string).

(** The manager of an [Auth] object is the one given to the constructor. *)
Lemma use_manager a m :
  AuthClass.manager (snd (AuthClass.use m a)) = AuthClass.manager a.
Proof.
  unfold AuthClass.use. destruct (AuthClass.mappingsCache a !! m); [reflexivity|].
  destruct (AuthClass.makeMapping _ _ _ _); reflexivity.
Qed.

(** With a manager that always answers, [use] keeps the effects in step
    with the cache: one trace and one call for each cached mapping. *)
Lemma use_counts a m' :
  (forall h c m, exists i,
      AuthClass.makeMapping (AuthClass.manager a) h c m = Return i) ->
  (forall m,
      AuthClass.asked m (AuthClass.effects a) =
        from_option (fun _ => 1) 0 (AuthClass.mappingsCache a !! m) /\
      AuthClass.traced m (AuthClass.effects a) = AuthClass.asked m (AuthClass.effects a)) ->
  forall m,
    (is_Some (AuthClass.mappingsCache (snd (AuthClass.use m' a)) !! m) <->
     is_Some (AuthClass.mappingsCache a !! m) \/ m = m') /\
    AuthClass.asked m (AuthClass.effects (snd (AuthClass.use m' a))) =
      from_option (fun _ => 1) 0 (AuthClass.mappingsCache (snd (AuthClass.use m' a)) !! m) /\
    AuthClass.traced m (AuthClass.effects (snd (AuthClass.use m' a))) =
      AuthClass.asked m (AuthClass.effects (snd (AuthClass.use m' a))).
Proof.
  intros Htotal Hinv m. destruct (Hinv m) as [Hasked Htraced].
  unfold AuthClass.use.
  destruct (AuthClass.mappingsCache a !! m') as [j|] eqn:Hc.
  - cbn [snd]. repeat split; try assumption; [tauto|].
    intros [H | ->]; [exact H | rewrite Hc; eauto].
  - destruct (Htotal (AuthClass.effects a ++
                        [AuthClass.LoggerTrace "instantiating auth mapping" m'])
                (AuthClass.ctx a) m') as [i Hi].
    rewrite Hi. cbn [snd AuthClass.mappingsCache AuthClass.effects].
    rewrite !asked_app, !traced_app.
    assert (Ha1 : AuthClass.asked m
                    [AuthClass.LoggerTrace "instantiating auth mapping" m'] = 0)
      by reflexivity.
    assert (Ht2 : AuthClass.traced m [AuthClass.MakeMapping m'] = 0) by reflexivity.
    assert (Ha2 : AuthClass.asked m [AuthClass.MakeMapping m']
                  = if String.eqb m' m then 1 else 0)
      by (unfold AuthClass.asked; cbn; destruct (String.eqb m' m); reflexivity).
    assert (Ht1 : AuthClass.traced m
                    [AuthClass.LoggerTrace "instantiating auth mapping" m']
                  = if String.eqb m' m then 1 else 0)
      by (unfold AuthClass.traced; cbn; destruct (String.eqb m' m); reflexivity).
    rewrite Ha1, Ha2, Ht1, Ht2.
    destruct (String.eqb m' m) eqn:Heq.
    + apply String.eqb_eq in Heq. subst m'.
      rewrite lookup_insert_eq. rewrite Hc in Hasked. rewrite Htraced, Hasked.
      cbn. repeat split; eauto.
    + apply String.eqb_neq in Heq.
      rewrite lookup_insert_ne by exact Heq. rewrite !Nat.add_0_r.
      repeat split; try assumption; [tauto|].
      intros [H | ->]; [exact H | contradiction].
Qed.

Lemma uses_counts ms a :
  (forall h c m, exists i,
      AuthClass.makeMapping (AuthClass.manager a) h c m = Return i) ->
  (forall m,
      AuthClass.asked m (AuthClass.effects a) =
        from_option (fun _ => 1) 0 (AuthClass.mappingsCache a !! m) /\
      AuthClass.traced m (AuthClass.effects a) = AuthClass.asked m (AuthClass.effects a)) ->
  forall m,
    (is_Some (AuthClass.mappingsCache (AuthClass.uses ms a) !! m) <->
     is_Some (AuthClass.mappingsCache a !! m) \/ m ∈ ms) /\
    AuthClass.asked m (AuthClass.effects (AuthClass.uses ms a)) =
      from_option (fun _ => 1) 0 (AuthClass.mappingsCache (AuthClass.uses ms a) !! m) /\
    AuthClass.traced m (AuthClass.effects (AuthClass.uses ms a)) =
      AuthClass.asked m (AuthClass.effects (AuthClass.uses ms a)).
Proof.
  revert a. induction ms as [|m' ms IH]; intros a Htotal Hinv m.
  - cbn. destruct (Hinv m) as [Ha Ht]. repeat split; try assumption; [tauto|].
    intros [H | H]; [exact H | inversion H].
  - pose proof (use_counts a m' Htotal Hinv) as Hstep.
    assert (Htotal' : forall h c m0, exists i,
               AuthClass.makeMapping (AuthClass.manager (snd (AuthClass.use m' a))) h c m0
               = Return i) by (rewrite use_manager; exact Htotal).
    destruct (IH (snd (AuthClass.use m' a)) Htotal'
                (fun m0 => proj2 (Hstep m0)) m) as (Hdom & Ha & Ht).
    change (AuthClass.uses (m' :: ms) a)
      with (AuthClass.uses ms (snd (AuthClass.use m' a))).
    repeat split; try assumption.
    + intros H. apply Hdom in H. destruct H as [H | H].
      * apply (proj1 (Hstep m)) in H. destruct H as [H | ->];
          [left; exact H | right; left].
      * right. right. exact H.
    + intros H. apply Hdom. destruct H as [H | H].
      * left. apply (proj1 (Hstep m)). left. exact H.
      * apply elem_of_cons in H. destruct H as [-> | H].
        -- left. apply (proj1 (Hstep m')). right. reflexivity.
        -- right. exact H.
Qed.

End AskedOnce.

(** X13. With a manager that always answers, after any sequence of [use]
    calls on a new [Auth] object the cache holds exactly the mappings that
    were asked for, and for each of them the manager was called once and the
    instantiation traced once, however often the mapping was asked for; a
    mapping never asked for was never built. *)
Theorem manager_asked_once {Ctx Instance : Type}
    (mgr : @AuthClass.AuthManagerContract Ctx Instance) (c : Ctx)
    (ms : list string) (m : string) :
  (forall h c' m', exists i, AuthClass.makeMapping mgr h c' m' = Return i) ->
  let a := AuthClass.uses ms (AuthClass.Auth_new mgr c) in
  (is_Some (AuthClass.mappingsCache a !! m) <-> m ∈ ms) /\
  AuthClass.asked m (AuthClass.effects a) = (if bool_decide (m ∈ ms) then 1 else 0) /\
  AuthClass.traced m (AuthClass.effects a) = AuthClass.asked m (AuthClass.effects a).
Proof.
  intros Htotal a.
  destruct (uses_counts ms (AuthClass.Auth_new mgr c) Htotal
              (fun m0 => conj eq_refl eq_refl) m)
    as (Hdom & Ha & Ht).
  fold a in Hdom, Ha, Ht.
  assert (Hdom' : is_Some (AuthClass.mappingsCache a !! m) <-> m ∈ ms).
  { rewrite Hdom. cbn. rewrite lookup_empty. split; [|auto].
    intros [[x Hx] | H]; [discriminate | exact H]. }
  repeat split; try apply Hdom'; try exact Ht.
  rewrite Ha. case_bool_decide as Hin.
  - apply Hdom' in Hin. destruct Hin as [x ->]. reflexivity.
  - destruct (AuthClass.mappingsCache a !! m) eqn:Hl; [|reflexivity].
    exfalso. apply Hin, Hdom'. eauto.
Qed.

Lemma manager_asked_once_witness :
  let a := AuthClass.uses ["web"; "api"; "web"; "web"]%string
             (AuthClass.Auth_new SampleAuth.steady tt) in
  AuthClass.asked "web" (AuthClass.effects a) = 1 /\
  AuthClass.traced "web" (AuthClass.effects a) = 1 /\
  AuthClass.asked "basic" (AuthClass.effects a) = 0.
Proof.
  pose proof (manager_asked_once SampleAuth.steady tt
                ["web"; "api"; "web"; "web"]%string "web"
                (fun h _ _ => ex_intro _ (length h) eq_refl)) as (_ & Hweb & Htr).
  pose proof (manager_asked_once SampleAuth.steady tt
                ["web"; "api"; "web"; "web"]%string "basic"
                (fun h _ _ => ex_intro _ (length h) eq_refl)) as (_ & Hbasic & _).
  cbv zeta in *. split; [exact Hweb|]. split; [rewrite Htr; exact Hweb | exact Hbasic].
Defined.
